(** * A shallow embedding of [_pytime_windows.py]

    The module re-implements CPython's [time] module on top of raw
    kernel32 calls.  This development embeds its calendar arithmetic
    ([localtime], [gmtime], [mktime], [_calc_weekday], [_calc_yday],
    [_is_leap]), the [struct_time] class, the [strftime] scanner, the
    [asctime] and [ctime] renderings, the [get_clock_info] registry,
    the call sequence of [sleep] and the clocks ([monotonic],
    [process_time], [thread_time], [time] and their [_ns] variants), and
    proves properties of them.

    Conventions of the embedding:
    - a Python [int] is a [Z] (unbounded, floor division and modulus);
      the [seconds] argument of [localtime] and [gmtime] is an [int];
    - a Python [float] is an IEEE-754 binary64 value, a [spec_float] of
      the standard library with precision 53 and exponent bound 1024;
    - a Python [str] is a [string] of 8-bit characters;
    - a Python exception is a constructor of [exn]; a function that can
      raise returns a [result];
    - values read from the operating system (local time, time-zone
      record, performance frequency and counter, file times) are
      explicit arguments. *)

From Equations Require Import Equations.
From stdpp Require Import base option list gmap strings pretty.
From Stdlib Require Import ZArith Lia Ascii.
From Stdlib Require SpecFloat.

#[local] Open Scope string_scope.
#[local] Open Scope Z_scope.

(** ** Exceptions and results *)

Inductive exn : Type :=
| IndexError
| ValueError (msg : string)
| AttributeError
| ZeroDivisionError
| OSError (msg : string)
| OverflowError (msg : string).

Inductive result (A : Type) : Type :=
| Ok (a : A)
| Raise (e : exn).
Arguments Ok {A} a.
Arguments Raise {A} e.

(** Sequencing: the first exception raised aborts what follows. *)
#[global] Instance result_bind : MBind result := fun A B k r =>
  match r with
  | Ok a => k a
  | Raise e => Raise e
  end.

(** ** Python sequence primitives *)

(** [l[i]]: a negative index counts from the end; out of range raises. *)
Definition py_getitem {A : Type} (l : list A) (i : Z) : result A :=
  let j := if i <? 0 then i + Z.of_nat (length l) else i in
  if j <? 0 then Raise IndexError
  else match l !! Z.to_nat j with
       | Some x => Ok x
       | None => Raise IndexError
       end.

(** [l[:n]]: a negative bound counts from the end and is clipped at 0. *)
Definition py_slice_to {A : Type} (l : list A) (n : Z) : list A :=
  let k := if n <? 0 then Z.max 0 (n + Z.of_nat (length l)) else n in
  take (Z.to_nat k) l.

(** [sum(l)] *)
Definition py_sum (l : list Z) : Z := fold_left Z.add l 0.

(** [range(a, b)] *)
Definition py_range (a b : Z) : list Z :=
  map (fun i => a + Z.of_nat i) (seq 0 (Z.to_nat (b - a))).

(** ** Calendar arithmetic *)

Definition _calc_weekday_t : list Z := [0; 3; 2; 5; 0; 3; 5; 1; 4; 6; 2; 4].

Definition _calc_weekday (year month day : Z) : result Z :=
  let y := year - (if month <? 3 then 1 else 0) in
  t_m ← py_getitem _calc_weekday_t (month - 1);
  let w := (y + y / 4 - y / 100 + y / 400 + t_m + day) mod 7 in
  Ok ((w - 1) mod 7).

Definition _is_leap (year : Z) : bool :=
  ((year mod 4 =? 0) && negb (year mod 100 =? 0)) || (year mod 400 =? 0).

Definition _month_days : list Z := [31; 28; 31; 30; 31; 30; 31; 31; 30; 31; 30; 31].

(** [mdays = _month_days.copy(); if _is_leap(year): mdays[1] = 29] *)
Definition leap_patched (year : Z) : list Z :=
  if _is_leap year then <[1%nat := 29]> _month_days else _month_days.

Definition _calc_yday (year month day : Z) : Z :=
  let mdays := leap_patched year in
  day + py_sum (py_slice_to mdays (month - 1)).

(** ** [struct_time] *)

(** An instance is a tuple (its positional items) carrying nine instance
    attributes.  [__new__] calls [super().__new__(cls)] with no iterable,
    so the tuple part is the empty tuple; the attributes are unpacked
    from [args[0]], which raises [ValueError] unless it has nine items. *)
Record struct_time : Type := mk_struct_time {
  tuple_items : list Z;
  tm_year : Z; tm_mon : Z; tm_mday : Z;
  tm_hour : Z; tm_min : Z; tm_sec : Z;
  tm_wday : Z; tm_yday : Z; tm_isdst : Z
}.

(** [tuple.__new__(cls[, iterable])]: the items of the new tuple. *)
Definition tuple_new (iterable : option (list Z)) : list Z :=
  match iterable with
  | Some items => items
  | None => []
  end.

Definition struct_time_new (args0 : list Z) : result struct_time :=
  let inst := tuple_new None in
  match args0 with
  | [y; mo; d; h; mi; s; wd; yd; dst] =>
      Ok (mk_struct_time inst y mo d h mi s wd yd dst)
  | _ =>
      Raise (ValueError (if (length args0 <? 9)%nat
                         then "not enough values to unpack (expected 9, got "
                              +:+ pretty (Z.of_nat (length args0)) +:+ ")"
                         else "too many values to unpack (expected 9)"))
  end.

(** What [tuple] gives an instance: [len], indexing, [==] and [<]. *)
Definition struct_time_len (t : struct_time) : Z :=
  Z.of_nat (length (tuple_items t)).

Definition struct_time_getitem (t : struct_time) (i : Z) : result Z :=
  py_getitem (tuple_items t) i.

Fixpoint tuple_eqb (a b : list Z) : bool :=
  match a, b with
  | [], [] => true
  | x :: a', y :: b' => (x =? y) && tuple_eqb a' b'
  | _, _ => false
  end.

Fixpoint tuple_ltb (a b : list Z) : bool :=
  match a, b with
  | _, [] => false
  | [], _ :: _ => true
  | x :: a', y :: b' => if x =? y then tuple_ltb a' b' else x <? y
  end.

Definition struct_time_eqb (s t : struct_time) : bool :=
  tuple_eqb (tuple_items s) (tuple_items t).

Definition struct_time_ltb (s t : struct_time) : bool :=
  tuple_ltb (tuple_items s) (tuple_items t).

(** ** [localtime], [gmtime], [mktime] *)

(** The fields of the kernel32 structures the module reads; names and
    transition dates of the time-zone record are not used by the code
    embedded here. *)
Record SYSTEMTIME : Type := {
  wYear : Z; wMonth : Z; wDayOfWeek : Z; wDay : Z;
  wHour : Z; wMinute : Z; wSecond : Z; wMilliseconds : Z
}.

Record TIME_ZONE_INFORMATION : Type := {
  Bias : Z; StandardBias : Z; DaylightBias : Z
}.

(** [366 if _is_leap(year) else 365] *)
Definition year_days (year : Z) : Z := if _is_leap year then 366 else 365.

(** Keeps the outcome of a test as an equation, for the termination proof. *)
Definition inspect {A : Type} (a : A) : {b : A | a = b} := exist _ a eq_refl.

(** The [while 1] loop of [localtime]: strip whole years off [days].
    It terminates because [days] decreases while it is at least 365. *)
Equations? year_loop (days year : Z) : Z * Z by wf (Z.to_nat days) lt :=
  year_loop days year with inspect (days >=? year_days year) := {
    | exist _ true _ => year_loop (days - year_days year) (year + 1);
    | exist _ false _ => (days, year) }.
Proof.
  unfold year_days in *. destruct (_is_leap year); lia.
Qed.

(** The [for mlen in mdays] loop of [localtime]. *)
Fixpoint month_loop (mdays : list Z) (days month : Z) : Z * Z :=
  match mdays with
  | [] => (days, month)
  | mlen :: rest =>
      if days + 1 >? mlen then month_loop rest (days - mlen) (month + 1)
      else (days, month)
  end.

(** [localtime]: [st] is what [GetLocalTime] would fill in; it is read
    only when no argument is passed. *)
Definition localtime (st : SYSTEMTIME) (seconds : option Z) : result struct_time :=
  '(year, month, day, hour, minute, second) ←
    match seconds with
    | Some seconds =>
        let second := seconds mod 60 in
        let seconds := seconds / 60 in
        let minute := seconds mod 60 in
        let seconds := seconds / 60 in
        let hour := seconds mod 24 in
        let days := seconds / 24 in
        let '(days, year) := year_loop days 1970 in
        let mdays := leap_patched year in
        let '(days, month) := month_loop mdays days 1 in
        let day := days + 1 in
        Ok (year, month, day, hour, minute, second)
    | None =>
        let '(year, month, day) := (wYear st, wMonth st, wDay st) in
        '(year, month, day) ←
          (if day =? 0 then
             let month := month - 1 in
             let '(month, year) :=
               if month =? 0 then (12, year - 1) else (month, year) in
             day ← py_getitem (leap_patched year) (month - 1);
             Ok (year, month, day)
           else Ok (year, month, day));
        Ok (year, month, day, wHour st, wMinute st, wSecond st)
    end;
  tm_wday ← _calc_weekday year month day;
  let tm_yday := _calc_yday year month day in
  let tm_isdst := 0 in
  struct_time_new [year; month; day; hour; minute; second; tm_wday; tm_yday; tm_isdst].

(** [gmtime]: [now] stands for the reading of [time()] used when no
    argument is passed, taken as a whole number of seconds (the
    arithmetic of [localtime] is embedded on ints). *)
Definition gmtime (now : Z) (st : SYSTEMTIME) (seconds : option Z) : result struct_time :=
  let seconds := match seconds with None => now | Some s => s end in
  localtime st (Some seconds).

(** [tzi] is the record [GetTimeZoneInformation] fills in at the call. *)
Definition _get_local_utc_offset_seconds (tzi : TIME_ZONE_INFORMATION) (isdst_flag : Z) : Z :=
  let bias := Bias tzi in
  let bias := if isdst_flag >? 0 then bias + DaylightBias tzi else bias in
  bias * 60.

Definition mktime (tzi : TIME_ZONE_INFORMATION) (tuple : struct_time) : Z :=
  let '(year, mon, mday) := (tm_year tuple, tm_mon tuple, tm_mday tuple) in
  let '(hour, minute, sec) := (tm_hour tuple, tm_min tuple, tm_sec tuple) in
  let days := fold_left (fun days y => days + year_days y) (py_range 1970 year) 0 in
  let mdays := leap_patched year in
  let days := days + py_sum (py_slice_to mdays (mon - 1)) in
  let days := days + (mday - 1) in
  let local_secs := days * 86400 + hour * 3600 + minute * 60 + sec in
  let offset_sec := _get_local_utc_offset_seconds tzi (tm_isdst tuple) in
  local_secs + offset_sec.

(** ** [strftime] *)

Definition _weekdays : list string :=
  ["Mon"; "Tue"; "Wed"; "Thu"; "Fri"; "Sat"; "Sun"].
Definition _weekdays_full : list string :=
  ["Monday"; "Tuesday"; "Wednesday"; "Thursday"; "Friday"; "Saturday"; "Sunday"].
Definition _months : list string :=
  ["Jan"; "Feb"; "Mar"; "Apr"; "May"; "Jun";
   "Jul"; "Aug"; "Sep"; "Oct"; "Nov"; "Dec"].
Definition _months_full : list string :=
  ["January"; "February"; "March"; "April"; "May"; "June";
   "July"; "August"; "September"; "October"; "November"; "December"].

(** [str(n)] for an int. *)
Definition py_str (n : Z) : string := pretty n.

Fixpoint zeros (n : nat) : string :=
  match n with
  | O => EmptyString
  | S n' => String "0" (zeros n')
  end.

(** [s.zfill(width)]: the padding goes after a leading sign. *)
Definition zfill (s : string) (width : Z) : string :=
  let len := Z.of_nat (String.length s) in
  if width <=? len then s
  else
    let pad := zeros (Z.to_nat (width - len)) in
    match s with
    | String c rest =>
        if (c =? "+")%char || (c =? "-")%char then String c (pad +:+ rest)
        else pad +:+ s
    | EmptyString => pad
    end.

Definition _zero (n : Z) : string := zfill (py_str n) 2.

(** [tm.<field>]: the default [tuple=None] has no such attribute. *)
Definition attr (field : struct_time -> Z) (tm : option struct_time) : result Z :=
  match tm with
  | Some t => Ok (field t)
  | None => Raise AttributeError
  end.

Definition _yday (tm : option struct_time) : result string :=
  yd ← attr tm_yday tm; Ok (zfill (py_str yd) 3).

Abbreviation handler := (option struct_time -> result string) (only parsing).

Definition _strtime_handlers : gmap ascii handler :=
  list_to_map [
    ("Y"%char, (fun tm => y ← attr tm_year tm; Ok (py_str y)) : handler);
    ("y"%char, fun tm => y ← attr tm_year tm; Ok (_zero (y mod 100)));
    ("m"%char, fun tm => v ← attr tm_mon tm; Ok (_zero v));
    ("d"%char, fun tm => v ← attr tm_mday tm; Ok (_zero v));
    ("H"%char, fun tm => v ← attr tm_hour tm; Ok (_zero v));
    ("M"%char, fun tm => v ← attr tm_min tm; Ok (_zero v));
    ("S"%char, fun tm => v ← attr tm_sec tm; Ok (_zero v));
    ("a"%char, fun tm => v ← attr tm_wday tm; py_getitem _weekdays v);
    ("A"%char, fun tm => v ← attr tm_wday tm; py_getitem _weekdays_full v);
    ("b"%char, fun tm => v ← attr tm_mon tm; py_getitem _months (v - 1));
    ("B"%char, fun tm => v ← attr tm_mon tm; py_getitem _months_full (v - 1));
    ("w"%char, fun tm => v ← attr tm_wday tm; Ok (py_str v));
    ("j"%char, fun tm => _yday tm);
    ("%"%char, fun tm => Ok "%")
  ].

(** The [while i < L] loop: [format] is the part of the format string
    from index [i] on, [res] the pieces appended so far. *)
Fixpoint strftime_loop (format : string) (tuple : option struct_time)
    (res : list string) : result (list string) :=
  match format with
  | EmptyString => Ok res
  | String c rest =>
      match (c =? "%")%char, rest with
      | true, String code rest' =>
          piece ← match _strtime_handlers !! code with
                  | Some fn => fn tuple
                  | None => Ok (String "%" (String code EmptyString))
                  end;
          strftime_loop rest' tuple (res ++ [piece])
      | _, _ => strftime_loop rest tuple (res ++ [String c EmptyString])
      end
  end.

Definition strftime (format : string) (tuple : option struct_time) : result string :=
  res ← strftime_loop format tuple [];
  Ok (String.concat EmptyString res).

(** ** [get_clock_info] *)

(** [c.lower()] on a character U+0000..U+00FF. *)
Definition lower_char (c : ascii) : ascii :=
  let n := Z.of_N (N_of_ascii c) in
  if ((65 <=? n) && (n <=? 90)) || ((192 <=? n) && (n <=? 222) && negb (n =? 215))
  then ascii_of_N (Z.to_N (n + 32))
  else c.

Fixpoint lower (s : string) : string :=
  match s with
  | EmptyString => EmptyString
  | String c rest => String (lower_char c) (lower rest)
  end.

(** The [resolution] field is a float; it is kept as the expression that
    produces it.  [resolution_float] below gives the float an expression
    evaluates to; two expressions can evaluate to the same float. *)
Inductive resolution_value : Type :=
| one_over (frequency : Z)   (* 1 / _frequency *)
| lit_1e_7.                  (* 1e-7 *)

(** The [types.SimpleNamespace] the function returns. *)
Record clock_info : Type := {
  resolution : resolution_value;
  adjustable : bool;
  implementation : string;
  monotonic : bool
}.

Definition known_clocks : list string :=
  ["monotonic"; "perf_counter"; "process_time"; "thread_time"; "time"].

(** [_frequency] is the value [QueryPerformanceFrequency] stored at import. *)
Definition get_clock_info (_frequency : Z) (name : string) : result clock_info :=
  let name := lower name in
  if (name =? "monotonic")%string || (name =? "perf_counter")%string then
    if _frequency =? 0 then Raise ZeroDivisionError
    else Ok {| resolution := one_over _frequency; adjustable := false;
               implementation := "QueryPerformanceCounter"; monotonic := true |}
  else if (name =? "process_time")%string then
    Ok {| resolution := lit_1e_7; adjustable := false;
          implementation := "GetProcessTimes"; monotonic := true |}
  else if (name =? "thread_time")%string then
    Ok {| resolution := lit_1e_7; adjustable := false;
          implementation := "GetThreadTimes"; monotonic := true |}
  else if (name =? "time")%string then
    Ok {| resolution := lit_1e_7; adjustable := true;
          implementation := "GetSystemTimeAsFileTime"; monotonic := false |}
  else Raise (ValueError ("unknown clock: " +:+ name)).

(** ** [asctime], [ctime] *)

Fixpoint spaces (n : nat) : string :=
  match n with
  | O => EmptyString
  | S n' => String " " (spaces n')
  end.

(** ["%<width>d" % n], and with the flag ["%0<width>d" % n]: the decimal
    digits of an int, padded on the left up to [width] with spaces, or
    with zeros put after the sign. *)
Definition py_format_d (zero_flag : bool) (width : Z) (n : Z) : string :=
  let s := py_str n in
  if zero_flag then zfill s width
  else
    let len := Z.of_nat (String.length s) in
    if width <=? len then s else spaces (Z.to_nat (width - len)) +:+ s.

(** [asctime]: without an argument the tuple is [localtime()]. *)
Definition asctime (st : SYSTEMTIME) (tuple : option struct_time) : result string :=
  tuple ← match tuple with
          | None => localtime st None
          | Some t => Ok t
          end;
  wday_str ← py_getitem _weekdays (tm_wday tuple mod 7);
  mon_str ← py_getitem _months (tm_mon tuple - 1);
  Ok (wday_str +:+ " " +:+ mon_str +:+ " "
      +:+ py_format_d false 2 (tm_mday tuple) +:+ " "
      +:+ py_format_d true 2 (tm_hour tuple) +:+ ":"
      +:+ py_format_d true 2 (tm_min tuple) +:+ ":"
      +:+ py_format_d true 2 (tm_sec tuple) +:+ " "
      +:+ py_str (tm_year tuple)).

Definition ctime (st : SYSTEMTIME) (seconds : option Z) : result string :=
  tm ← localtime st seconds;
  asctime st (Some tm).

(** ** Module attributes computed from the time-zone record *)

(** [altzone] and [timezone]; [tzi] is the record read at import. *)
Definition altzone (tzi : TIME_ZONE_INFORMATION) : Z :=
  (Bias tzi + DaylightBias tzi) * 60.

Definition timezone (tzi : TIME_ZONE_INFORMATION) : Z :=
  _get_local_utc_offset_seconds tzi 0.

(** ** [sleep] *)

(** The kernel32 calls [sleep] makes, in order, with the arguments that
    vary: the milliseconds of [Sleep], the due time stored in the
    [LARGE_INTEGER] passed to [SetWaitableTimer], the timeout of
    [WaitForSingleObject]. *)
Inductive os_call : Type :=
| Sleep (milliseconds : Z)
| SetWaitableTimer (due_time : Z)
| WaitForSingleObject (timeout : Z).

(** What the system answers: whether [SetWaitableTimer] succeeds, what
    [WaitForSingleObject] returns, and the text of the last error. *)
Record timer_os : Type := {
  set_timer_ok : bool;
  wait_result : Z;
  last_error : string
}.

Definition INFINITE : Z := 4294967295.

(** Storing an int in a [c_longlong] field keeps its low 64 bits, read as
    a signed number (ctypes does no overflow checking). *)
Definition c_longlong (n : Z) : Z := (n + 2 ^ 63) mod 2 ^ 64 - 2 ^ 63.

(** [sleep] on an int argument: the calls made, and the outcome. *)
Definition sleep (os : timer_os) (seconds : Z) : list os_call * result unit :=
  if seconds =? 0 then ([Sleep 0], Ok tt)
  else
    let QuadPart := c_longlong (- (seconds * 10000000)) in
    if negb (set_timer_ok os) then
      ([SetWaitableTimer QuadPart], Raise (OSError (last_error os)))
    else
      let ret := wait_result os in
      if negb (ret =? 0) then
        ([SetWaitableTimer QuadPart; WaitForSingleObject INFINITE],
         Raise (OSError (last_error os)))
      else
        ([SetWaitableTimer QuadPart; WaitForSingleObject INFINITE], Ok tt).

(** ** Floats *)

(** A Python [float] is an IEEE-754 binary64 number: a [spec_float]
    taken at precision 53 and exponent bound 1024.  The operations round
    to nearest, ties to even. *)
Abbreviation float := SpecFloat.spec_float (only parsing).
Definition float_prec : Z := 53.
Definition float_emax : Z := 1024.

(** [float(n)] for an int [n]; it is also the conversion applied to an
    int operand of a float operation. *)
Definition float_of_int (n : Z) : result float :=
  match SpecFloat.binary_normalize float_prec float_emax n 0 false with
  | SpecFloat.S754_infinity _ =>
      Raise (OverflowError "int too large to convert to float")
  | f => Ok f
  end.

(** [a / b] on two ints: the quotient rounded once to the nearest float. *)
Definition int_truediv (a b : Z) : result float :=
  if b =? 0 then Raise ZeroDivisionError
  else if a =? 0 then Ok (SpecFloat.S754_zero (b <? 0))
  else
    match SpecFloat.SFdiv float_prec float_emax
            (SpecFloat.S754_finite (a <? 0) (Z.to_pos (Z.abs a)) 0)
            (SpecFloat.S754_finite (b <? 0) (Z.to_pos (Z.abs b)) 0) with
    | SpecFloat.S754_infinity _ =>
        Raise (OverflowError "integer division result too large for a float")
    | f => Ok f
    end.

Definition float_add (x y : float) : float :=
  SpecFloat.SFadd float_prec float_emax x y.

Definition float_mul (x y : float) : float :=
  SpecFloat.SFmul float_prec float_emax x y.

Definition float_sub (x y : float) : float :=
  SpecFloat.SFsub float_prec float_emax x y.

(** [x * n] and [x - n] for a float [x] and an int [n]. *)
Definition float_mul_int (x : float) (n : Z) : result float :=
  y ← float_of_int n; Ok (float_mul x y).

Definition float_sub_int (x : float) (n : Z) : result float :=
  y ← float_of_int n; Ok (float_sub x y).

(** [int(x)] for a float [x]: the integral part, the fraction dropped. *)
Definition py_int (x : float) : result Z :=
  match x with
  | SpecFloat.S754_zero _ => Ok 0
  | SpecFloat.S754_infinity _ =>
      Raise (OverflowError "cannot convert float infinity to integer")
  | SpecFloat.S754_nan => Raise (ValueError "cannot convert float NaN to integer")
  | SpecFloat.S754_finite s m e =>
      let magnitude := if 0 <=? e then Z.pos m * 2 ^ e else Z.pos m / 2 ^ (- e) in
      Ok (if s then - magnitude else magnitude)
  end.

(** The float literal [1e-7]. *)
Definition float_1e_7 : float := SpecFloat.S754_finite false 7555786372591432 (-76).

(** The float a [resolution] expression of [get_clock_info] evaluates
    to. *)
Definition resolution_float (r : resolution_value) : result float :=
  match r with
  | one_over frequency => int_truediv 1 frequency
  | lit_1e_7 => Ok float_1e_7
  end.

(** ** The clocks *)

Record FILETIME : Type := {
  dwLowDateTime : Z;
  dwHighDateTime : Z
}.

(** What [GetProcessTimes] or [GetThreadTimes] answers: whether the call
    succeeds, and the kernel and user times it stores. *)
Record cpu_times : Type := {
  times_ok : bool;
  lpKernelTime : FILETIME;
  lpUserTime : FILETIME
}.

(** What the system answers to the calls the clocks make:
    [QueryPerformanceCounter] fails ([None]) or stores a count, the two
    CPU-time calls, the system time as a file time, and the text of the
    last error. *)
Record clock_os : Type := {
  QueryPerformanceCounter : option Z;
  GetProcessTimes : cpu_times;
  GetThreadTimes : cpu_times;
  GetSystemTimeAsFileTime : FILETIME;
  GetLastError : string
}.

Definition _EPOCH_DIFF : Z := 11644473600.

Definition _filetime_to_seconds (ft : FILETIME) : result float :=
  let high := dwHighDateTime ft in
  let low := dwLowDateTime ft in
  let ticks := Z.lor (Z.shiftl high 32) low in
  int_truediv ticks 10000000.

(** [getattr(_kernel32, times)] for the two names the module passes. *)
Definition kernel32_times (os : clock_os) (times : string) : cpu_times :=
  if (times =? "GetProcessTimes")%string then GetProcessTimes os
  else GetThreadTimes os.

Module Clocks.

(** [_frequency] is the value [QueryPerformanceFrequency] stored at
    import. *)
Definition monotonic (os : clock_os) (_frequency : Z) : result float :=
  match QueryPerformanceCounter os with
  | None => Raise (OSError "QueryPerformanceCounter failed")
  | Some counter => int_truediv counter _frequency
  end.

Definition monotonic_ns (os : clock_os) (_frequency : Z) : result Z :=
  v ← monotonic os _frequency;
  x ← float_mul_int v 1000000000;
  py_int x.

Definition perf_counter := monotonic.

Definition perf_counter_ns := monotonic_ns.

Definition _get_user_cpu_time (os : clock_os) (current times : string) : result float :=
  let answer := kernel32_times os times in
  if negb (times_ok answer) then Raise (OSError (GetLastError os))
  else
    kernel ← _filetime_to_seconds (lpKernelTime answer);
    user ← _filetime_to_seconds (lpUserTime answer);
    Ok (float_add kernel user).

Definition process_time (os : clock_os) : result float :=
  _get_user_cpu_time os "GetCurrentProcess" "GetProcessTimes".

Definition process_time_ns (os : clock_os) : result Z :=
  v ← process_time os;
  x ← float_mul_int v 1000000000;
  py_int x.

Definition thread_time (os : clock_os) : result float :=
  _get_user_cpu_time os "GetCurrentThread" "GetThreadTimes".

Definition thread_time_ns (os : clock_os) : result Z :=
  v ← thread_time os;
  x ← float_mul_int v 1000000000;
  py_int x.

Definition time (os : clock_os) : result float :=
  v ← _filetime_to_seconds (GetSystemTimeAsFileTime os);
  float_sub_int v _EPOCH_DIFF.

Definition time_ns (os : clock_os) : result Z :=
  v ← time os;
  x ← float_mul_int v 1000000000;
  py_int x.

End Clocks.

(** ** Quantities used to state the properties *)

(** Number of leap years among the years 1..[y]. *)
Definition leaps_upto (y : Z) : Z := y / 4 - y / 100 + y / 400.

(** The accumulation [mktime] performs over [range(a, b)]. *)
Definition span_days (a b : Z) : Z :=
  fold_left (fun days y => days + year_days y) (py_range a b) 0.

(** The civil fields of a broken-down time, most significant first. *)
Definition civil_fields (t : struct_time) : list Z :=
  [tm_year t; tm_mon t; tm_mday t; tm_hour t; tm_min t; tm_sec t].

(** The keys of [_strtime_handlers]. *)
Definition handled_codes : list ascii :=
  ["Y"; "y"; "m"; "d"; "H"; "M"; "S"; "a"; "A"; "b"; "B"; "w"; "j"; "%"]%char.

(** The float [1e9], and the magnitude of a finite float [m * 2 ^ e] as
    a fraction of two integers. *)
Definition float_1e9 : float := SpecFloat.S754_finite false 8388608000000000 (-23).

Definition float_num (m : positive) (e : Z) : Z := Z.pos m * 2 ^ Z.max 0 e.

Definition float_den (e : Z) : Z := 2 ^ Z.max 0 (- e).

(** ** Sample values *)

(** A local time and a time zone (UTC+8, one hour of daylight saving). *)
Definition sample_systemtime : SYSTEMTIME := Build_SYSTEMTIME 2024 2 4 29 8 0 0 0.
Definition sample_tzi : TIME_ZONE_INFORMATION :=
  Build_TIME_ZONE_INFORMATION (-480) 0 (-60).

(** The same zone read again after daylight saving was abolished. *)
Definition sample_tzi_later : TIME_ZONE_INFORMATION :=
  Build_TIME_ZONE_INFORMATION (-480) 0 0.

(** 2024-02-28 23:59:59, a Wednesday, day 59 of the year. *)
Definition feb28_2024 : struct_time :=
  mk_struct_time [] 2024 2 28 23 59 59 2 59 0.

(** A tuple for 2024-02-29 08:30:15 with the derived fields unset, and
    a system on which arming the timer and waiting succeed. *)
Definition leap_day_2024 : struct_time :=
  mk_struct_time [] 2024 2 29 8 30 15 0 0 (-1).
Definition sample_timer_os : timer_os :=
  {| set_timer_ok := true; wait_result := 0; last_error := "no error" |}.

(** A system whose performance counter reads 157 (15.7 microseconds at
    10 MHz), whose process has spent 0.1 s in the kernel and 0.2 s in
    user code, and whose clock reads 2024-02-29 00:00:00.1234567 UTC. *)
Definition sample_clock_os : clock_os :=
  {| QueryPerformanceCounter := Some 157;
     GetProcessTimes :=
       {| times_ok := true;
          lpKernelTime := {| dwLowDateTime := 1000000; dwHighDateTime := 0 |};
          lpUserTime := {| dwLowDateTime := 2000000; dwHighDateTime := 0 |} |};
     GetThreadTimes :=
       {| times_ok := true;
          lpKernelTime := {| dwLowDateTime := 0; dwHighDateTime := 0 |};
          lpUserTime := {| dwLowDateTime := 2000000; dwHighDateTime := 0 |} |};
     GetSystemTimeAsFileTime :=
       {| dwLowDateTime := 1023137415; dwHighDateTime := 31091362 |};
     GetLastError := "no error" |}.

(** * Properties *)

(** ** Sample runs *)

Example localtime_epoch st :
  localtime st (Some 0) = Ok (mk_struct_time [] 1970 1 1 0 0 0 3 1 0).
Proof. vm_compute. reflexivity. Qed.

Example localtime_2023_03_01 st :
  localtime st (Some 1677628800) = Ok (mk_struct_time [] 2023 3 1 0 0 0 2 60 0).
Proof. vm_compute. reflexivity. Qed.

Example strftime_names :
  strftime "%a %A %b %B %j %w %y %%"
    (Some (mk_struct_time [] 1998 6 6 16 26 11 5 157 0))
  = Ok "Sat Saturday Jun June 157 5 98 %".
Proof. vm_compute. reflexivity. Qed.

(** ** Leap years and year lengths *)

Section LeapYears.

Variable y : Z.

Lemma year_days_pos : 365 <= year_days y <= 366.
Proof. unfold year_days. destruct (_is_leap y); lia. Qed.

Lemma _is_leap_rule :
  _is_leap y = true <-> (y mod 4 = 0 /\ y mod 100 <> 0) \/ y mod 400 = 0.
Proof.
  unfold _is_leap.
  destruct (Z.eqb_spec (y mod 4) 0), (Z.eqb_spec (y mod 100) 0),
    (Z.eqb_spec (y mod 400) 0); cbn; intuition congruence.
Qed.

Lemma leaps_upto_step :
  leaps_upto y = leaps_upto (y - 1) + (if _is_leap y then 1 else 0).
Proof.
  unfold leaps_upto, _is_leap.
  destruct (Z.eqb_spec (y mod 4) 0), (Z.eqb_spec (y mod 100) 0),
    (Z.eqb_spec (y mod 400) 0); cbn [andb orb negb];
    Z.div_mod_to_equations; lia.
Qed.

Lemma year_days_leaps : year_days y = 365 + leaps_upto y - leaps_upto (y - 1).
Proof. rewrite leaps_upto_step. unfold year_days. destruct (_is_leap y); lia. Qed.

End LeapYears.

(** ** Whole days in a span of years *)

Lemma py_range_empty a b : b <= a -> py_range a b = [].
Proof.
  intros H. unfold py_range.
  replace (Z.to_nat (b - a)) with O by lia. reflexivity.
Qed.

Lemma py_range_cons a b : a < b -> py_range a b = a :: py_range (a + 1) b.
Proof.
  intros H. unfold py_range.
  replace (Z.to_nat (b - a)) with (S (Z.to_nat (b - (a + 1)))) by lia.
  cbn [seq map]. f_equal; [lia|].
  rewrite <- seq_shift, map_map. apply map_ext. intros i. lia.
Qed.

Lemma fold_year_days_acc l acc :
  fold_left (fun days y => days + year_days y) l acc
  = acc + fold_left (fun days y => days + year_days y) l 0.
Proof.
  revert acc. induction l as [|y l IH]; intros acc; cbn [fold_left]; [lia|].
  rewrite (IH (acc + year_days y)), (IH (0 + year_days y)). lia.
Qed.

Lemma span_days_empty a b : b <= a -> span_days a b = 0.
Proof. intros H. unfold span_days. rewrite py_range_empty by lia. reflexivity. Qed.

Lemma span_days_cons a b :
  a < b -> span_days a b = year_days a + span_days (a + 1) b.
Proof.
  intros H. unfold span_days. rewrite py_range_cons by lia.
  cbn [fold_left]. rewrite fold_year_days_acc. lia.
Qed.

Lemma span_days_nonneg a b : 0 <= span_days a b.
Proof.
  remember (Z.to_nat (b - a)) as n eqn:Hn.
  revert a Hn. induction n as [|n IH]; intros a Hn.
  - rewrite span_days_empty by lia. lia.
  - rewrite span_days_cons by lia.
    pose proof (year_days_pos a). pose proof (IH (a + 1) ltac:(lia)). lia.
Qed.

(** 365 days a year plus one for each leap year in between. *)
Lemma span_days_closed a b :
  a <= b -> span_days a b = 365 * (b - a) + leaps_upto (b - 1) - leaps_upto (a - 1).
Proof.
  intros H. remember (Z.to_nat (b - a)) as n eqn:Hn.
  revert a H Hn. induction n as [|n IH]; intros a H Hn.
  - assert (a = b) by lia. subst. rewrite span_days_empty by lia. lia.
  - rewrite span_days_cons by lia. rewrite (IH (a + 1)) by lia.
    rewrite year_days_leaps. replace (a + 1 - 1) with a by lia. lia.
Qed.

(** ** The year loop *)

Lemma year_loop_eq days year :
  year_loop days year =
  if days >=? year_days year then year_loop (days - year_days year) (year + 1)
  else (days, year).
Proof.
  funelim (year_loop days year); simp year_loop;
    match goal with H : (_ >=? _) = _ |- _ => rewrite H end; reflexivity.
Qed.

(** Before the epoch the loop body is never entered. *)
Lemma year_loop_neg days year : days < 365 -> year_loop days year = (days, year).
Proof.
  intros H. rewrite year_loop_eq.
  pose proof (year_days_pos year).
  destruct (Z.geb_spec days (year_days year)); [lia | reflexivity].
Qed.

(** The loop stops at the year containing day number [days]. *)
Lemma year_loop_spec days year :
  0 <= days ->
  exists d y, year_loop days year = (d, y)
    /\ year <= y /\ 0 <= d < year_days y /\ days = span_days year y + d.
Proof.
  intros H. remember (Z.to_nat days) as n eqn:Hn.
  revert days year H Hn. induction (lt_wf n) as [n _ IH]. intros days year H Hn.
  rewrite year_loop_eq. pose proof (year_days_pos year) as Hy.
  destruct (Z.geb_spec days (year_days year)) as [Hge|Hlt].
  - destruct (IH (Z.to_nat (days - year_days year)) ltac:(lia)
               (days - year_days year) (year + 1) ltac:(lia) eq_refl)
      as (d & y & Heq & Hle & Hd & Hsum).
    exists d, y. rewrite Heq. repeat split; try lia.
    rewrite (span_days_cons year y) by lia. lia.
  - exists days, year. repeat split; try lia.
    rewrite span_days_empty by lia. lia.
Qed.

(** Conversely, a day number inside year [y] makes the loop stop at [y]. *)
Lemma year_loop_complete year y d :
  year <= y -> 0 <= d < year_days y ->
  year_loop (span_days year y + d) year = (d, y).
Proof.
  intros Hle Hd. remember (Z.to_nat (y - year)) as n eqn:Hn.
  revert year Hle Hn. induction n as [|n IH]; intros year Hle Hn.
  - assert (year = y) by lia. subst. rewrite span_days_empty by lia.
    replace (0 + d) with d by lia. rewrite year_loop_eq.
    destruct (Z.geb_spec d (year_days y)); [lia | reflexivity].
  - rewrite span_days_cons by lia. rewrite year_loop_eq.
    pose proof (year_days_pos year).
    pose proof (span_days_nonneg (year + 1) y).
    destruct (Z.geb_spec (year_days year + span_days (year + 1) y + d) (year_days year));
      [|lia].
    replace (year_days year + span_days (year + 1) y + d - year_days year)
      with (span_days (year + 1) y + d) by lia.
    apply IH; lia.
Qed.

(** ** The month loop *)

Lemma py_sum_cons x l : py_sum (x :: l) = x + py_sum l.
Proof.
  unfold py_sum. cbn [fold_left].
  assert (forall l acc, fold_left Z.add l acc = acc + fold_left Z.add l 0) as Hacc.
  { clear. induction l as [|y l IH]; intros acc; cbn [fold_left]; [lia|].
    rewrite (IH (acc + y)), (IH (0 + y)). lia. }
  rewrite Hacc. lia.
Qed.

(** A day number below the first month length leaves the loop at once;
    this is what happens to every negative day number. *)
Lemma month_loop_stop mlen rest days month :
  days + 1 <= mlen -> month_loop (mlen :: rest) days month = (days, month).
Proof.
  intros H. cbn [month_loop].
  destruct (Z.gtb_spec (days + 1) mlen); [lia | reflexivity].
Qed.

(** The loop stops at the month containing day number [days]: [k] months
    are skipped, and the remainder lies inside month [k]. *)
Lemma month_loop_spec (mdays : list Z) days month :
  Forall (fun mlen => 0 < mlen) mdays ->
  0 <= days < py_sum mdays ->
  exists (k : nat) mlen,
    mdays !! k = Some mlen
    /\ month_loop mdays days month
       = (days - py_sum (take k mdays), month + Z.of_nat k)
    /\ 0 <= days - py_sum (take k mdays) < mlen.
Proof.
  intros Hpos. revert days month.
  induction Hpos as [|mlen rest Hm Hrest IH]; intros days month Hd.
  - unfold py_sum in Hd. cbn in Hd. lia.
  - rewrite py_sum_cons in Hd. cbn [month_loop].
    destruct (Z.gtb_spec (days + 1) mlen) as [Hgt|Hle].
    + destruct (IH (days - mlen) (month + 1) ltac:(lia)) as (k & ml & Hk & Heq & Hr).
      exists (S k), ml. change (take (S k) (mlen :: rest)) with (mlen :: take k rest).
      change ((mlen :: rest) !! S k) with (rest !! k). rewrite py_sum_cons.
      split; [exact Hk|]. rewrite Heq. split; [f_equal; lia | lia].
    + exists O, mlen. change (py_sum (take 0 (mlen :: rest))) with 0.
      split; [reflexivity|]. split; [f_equal; lia | lia].
Qed.

Lemma leap_patched_pos year : Forall (fun mlen => 0 < mlen) (leap_patched year).
Proof.
  unfold leap_patched. destruct (_is_leap year);
    repeat (constructor; [lia|]); constructor.
Qed.

Lemma leap_patched_sum year : py_sum (leap_patched year) = year_days year.
Proof. unfold leap_patched, year_days. destruct (_is_leap year); reflexivity. Qed.

(** ** Indexing and slicing by a position inside the list *)

Lemma py_getitem_lookup {A} (l : list A) (k : nat) x :
  l !! k = Some x -> py_getitem l (Z.of_nat k) = Ok x.
Proof.
  intros H. unfold py_getitem.
  assert ((Z.of_nat k <? 0) = false) as Hk by (apply Z.ltb_ge; lia).
  rewrite !Hk, Nat2Z.id, H. reflexivity.
Qed.

Lemma py_slice_to_take {A} (l : list A) (k : nat) :
  py_slice_to l (Z.of_nat k) = take k l.
Proof.
  unfold py_slice_to. assert ((Z.of_nat k <? 0) = false) as Hk by (apply Z.ltb_ge; lia).
  rewrite Hk, Nat2Z.id. reflexivity.
Qed.

(** ** The weekday congruence counts days from the epoch *)

(** Evaluate the closed month number and table look-ups in the goal. *)
Ltac eval_month :=
  repeat match goal with
  | |- context [1 + Z.of_nat ?k] =>
      let v := eval vm_compute in (1 + Z.of_nat k) in
      change (1 + Z.of_nat k) with v
  end;
  repeat match goal with
  | |- context [py_getitem ?l ?i] =>
      let v := eval vm_compute in (py_getitem l i) in
      change (py_getitem l i) with v
  | |- context [py_sum ?l] =>
      let v := eval vm_compute in (py_sum l) in
      change (py_sum l) with v
  end.

Lemma calc_weekday_days year (k : nat) mlen r :
  1970 <= year ->
  leap_patched year !! k = Some mlen ->
  _calc_weekday year (1 + Z.of_nat k) (r + 1)
  = Ok ((span_days 1970 year + py_sum (take k (leap_patched year)) + r + 3) mod 7).
Proof.
  intros Hy Hk. rewrite span_days_closed by lia.
  change (leaps_upto (1970 - 1)) with 477.
  pose proof (leaps_upto_step year) as Hstep.
  unfold _calc_weekday, leap_patched in *.
  unfold leaps_upto in *.
  destruct (_is_leap year);
    do 12 (destruct k as [|k]; [clear Hk; eval_month; cbn; f_equal;
      rewrite ?Z.sub_0_r; Z.div_mod_to_equations; lia|]); discriminate Hk.
Qed.

(** ** What [localtime] returns on or after the epoch *)

Lemma leap_patched_lookup year (k : nat) mlen :
  leap_patched year !! k = Some mlen -> (k < 12)%nat /\ 28 <= mlen <= 31.
Proof.
  unfold leap_patched. intros H.
  destruct (_is_leap year);
    do 12 (destruct k as [|k]; [injection H as <-; lia|]); discriminate H.
Qed.

Lemma localtime_nonneg st s :
  0 <= s ->
  exists y (k : nat) mlen d,
    1970 <= y
    /\ leap_patched y !! k = Some mlen
    /\ 1 <= d <= mlen
    /\ 0 <= py_sum (take k (leap_patched y)) + (d - 1) < year_days y
    /\ s / 60 / 60 / 24
       = span_days 1970 y + py_sum (take k (leap_patched y)) + (d - 1)
    /\ localtime st (Some s)
       = Ok (mk_struct_time [] y (1 + Z.of_nat k) d
               (s / 60 / 60 mod 24) (s / 60 mod 60) (s mod 60)
               ((s / 60 / 60 / 24 + 3) mod 7)
               (d + py_sum (take k (leap_patched y))) 0).
Proof.
  intros Hs. unfold localtime.
  assert (0 <= s / 60 / 60 / 24) as Hdays by (Z.div_mod_to_equations; lia).
  destruct (year_loop_spec (s / 60 / 60 / 24) 1970 Hdays)
    as (d & y & Hyl & Hy & Hd & Hsum).
  cbn zeta. rewrite Hyl.
  destruct (month_loop_spec (leap_patched y) d 1 (leap_patched_pos y)
              ltac:(rewrite leap_patched_sum; exact Hd))
    as (k & mlen & Hk & Hml & Hr).
  rewrite Hml. remember (d - py_sum (take k (leap_patched y))) as r eqn:Er.
  exists y, k, mlen, (r + 1).
  split; [lia|]. split; [exact Hk|]. do 3 (split; [lia|]).
  unfold mbind at 1, result_bind at 1. cbn beta iota.
  rewrite (calc_weekday_days y k mlen r Hy Hk).
  unfold mbind, result_bind, struct_time_new, _calc_yday.
  replace (1 + Z.of_nat k - 1) with (Z.of_nat k) by lia.
  rewrite py_slice_to_take. do 2 f_equal. rewrite Hsum. f_equal. lia.
Qed.

Lemma seconds_recompose s :
  s = s / 60 / 60 / 24 * 86400 + (s / 60 / 60 mod 24) * 3600
      + (s / 60 mod 60) * 60 + s mod 60.
Proof. Z.div_mod_to_equations. lia. Qed.

Lemma seconds_days s : s / 60 / 60 / 24 = s / 86400.
Proof. rewrite !Z.div_div by lia. reflexivity. Qed.

(** A day count that falls inside year [y] is decomposed within [y]. *)
Lemma localtime_in_year st s y dd :
  1970 <= y -> 0 <= dd < year_days y ->
  s / 60 / 60 / 24 = span_days 1970 y + dd ->
  localtime st (Some s)
  = (let '(d, m) := month_loop (leap_patched y) dd 1 in
     wd ← _calc_weekday y m (d + 1);
     struct_time_new [y; m; d + 1; s / 60 / 60 mod 24; s / 60 mod 60; s mod 60;
                      wd; _calc_yday y m (d + 1); 0]).
Proof.
  intros Hy Hdd Hs. unfold localtime. cbn zeta.
  rewrite Hs, year_loop_complete by lia.
  destruct (month_loop (leap_patched y) dd 1) as [d m]. reflexivity.
Qed.

Lemma next_second_new_day s :
  s / 60 / 60 mod 24 = 23 -> s / 60 mod 60 = 59 -> s mod 60 = 59 ->
  (s + 1) / 60 / 60 / 24 = s / 60 / 60 / 24 + 1
  /\ (s + 1) / 60 / 60 mod 24 = 0 /\ (s + 1) / 60 mod 60 = 0 /\ (s + 1) mod 60 = 0.
Proof. intros. Z.div_mod_to_equations. lia. Qed.

(** ** Before the epoch, and totality *)

(** Before the epoch neither loop runs: the year stays 1970, the month 1,
    and the day is the (negative) day count plus one. *)
Lemma localtime_neg st s :
  s < 0 ->
  localtime st (Some s)
  = Ok (mk_struct_time [] 1970 1 (s / 60 / 60 / 24 + 1)
          (s / 60 / 60 mod 24) (s / 60 mod 60) (s mod 60)
          ((s / 60 / 60 / 24 + 3) mod 7) (s / 60 / 60 / 24 + 1) 0).
Proof.
  intros Hs. unfold localtime. cbn zeta.
  assert (s / 60 / 60 / 24 < 0) as Hdays by (Z.div_mod_to_equations; lia).
  rewrite year_loop_neg by lia.
  change (leap_patched 1970) with _month_days. unfold _month_days at 1.
  rewrite month_loop_stop by lia.
  unfold mbind at 1, result_bind at 1. cbn beta iota.
  unfold _calc_weekday. eval_month. 
  unfold mbind, result_bind, struct_time_new, _calc_yday. cbn.
  do 2 f_equal.
  - change (1970 - 1 + (1970 - 1) / 4 - (1970 - 1) / 100 + (1970 - 1) / 400 + 0)
      with 2446.
    generalize (s / 60 / 60 / 24). clear. intros D. Z.div_mod_to_equations; lia.
  - change (py_sum (py_slice_to (leap_patched 1970) (1 - 1))) with 0. lia.
Qed.

Lemma localtime_total st s : exists tm, localtime st (Some s) = Ok tm.
Proof.
  destruct (Z.lt_ge_cases s 0) as [Hneg|Hpos].
  - eexists. apply localtime_neg. exact Hneg.
  - destruct (localtime_nonneg st s Hpos) as (y & k & mlen & d & _ & _ & _ & _ & _ & H).
    eexists. exact H.
Qed.

(** On or after the epoch every field is in its documented range. *)
Lemma localtime_fields_in_range st s :
  0 <= s ->
  exists tm, localtime st (Some s) = Ok tm
    /\ 1970 <= tm_year tm
    /\ 1 <= tm_mon tm <= 12 /\ 1 <= tm_mday tm <= 31
    /\ 0 <= tm_hour tm <= 23 /\ 0 <= tm_min tm <= 59 /\ 0 <= tm_sec tm <= 59
    /\ 0 <= tm_wday tm <= 6 /\ 1 <= tm_yday tm <= 366 /\ tm_isdst tm = 0.
Proof.
  intros Hs.
  destruct (localtime_nonneg st s Hs)
    as (y & k & mlen & d & Hy & Hk & Hd & Hyd & Hdays & Htm).
  destruct (leap_patched_lookup y k mlen Hk) as [Hk12 Hmlen].
  pose proof (year_days_pos y).
  eexists. split; [exact Htm|]. cbn [tm_year tm_mon tm_mday tm_hour tm_min tm_sec
    tm_wday tm_yday tm_isdst].
  repeat split; try lia; Z.div_mod_to_equations; lia.
Qed.


(** ** [strftime]: one pass over the format string *)

Lemma append_empty_r (s : string) : s +:+ EmptyString = s.
Proof.
  induction s as [|c s IH]; [reflexivity|].
  change (String c s +:+ EmptyString) with (String c (s +:+ EmptyString)).
  rewrite IH. reflexivity.
Qed.

Lemma concat_cons (x : string) (l : list string) :
  String.concat EmptyString (x :: l) = x +:+ String.concat EmptyString l.
Proof. destruct l; cbn; [rewrite append_empty_r|]; reflexivity. Qed.

(** Induction on format strings two characters at a time. *)
Lemma string_pair_ind (P : string -> Prop) :
  P EmptyString -> (forall c, P (String c EmptyString)) ->
  (forall c c' s, P s -> P (String c' s) -> P (String c (String c' s))) ->
  forall s, P s.
Proof.
  intros H0 H1 H2 s. enough (P s /\ forall c, P (String c s)) as [H _] by exact H.
  induction s as [|c' s [IHs IHc]]; [split; [exact H0 | exact H1]|].
  split; [apply IHc|]. intros c. apply H2; [exact IHs | apply IHc].
Qed.

(** One iteration of the scanning loop. *)
Lemma strftime_loop_eq c rest tuple res :
  strftime_loop (String c rest) tuple res
  = match (c =? "%")%char, rest with
    | true, String code rest' =>
        piece ← match _strtime_handlers !! code with
                | Some fn => fn tuple
                | None => Ok (String "%" (String code EmptyString))
                end;
        strftime_loop rest' tuple (res ++ [piece])
    | _, _ => strftime_loop rest tuple (res ++ [String c EmptyString])
    end.
Proof. reflexivity. Qed.

(** The pieces appended so far do not influence the rest of the scan. *)
Lemma strftime_loop_acc format tuple res :
  strftime_loop format tuple res
  = (r ← strftime_loop format tuple []; Ok (res ++ r)%list).
Proof.
  revert res. induction format as [|c|c c' s IHs IHc] using string_pair_ind;
    intros res.
  - cbn. rewrite app_nil_r. reflexivity.
  - cbn. destruct (c =? "%")%char; reflexivity.
  - rewrite (strftime_loop_eq c (String c' s) tuple res),
      (strftime_loop_eq c (String c' s) tuple []).
    destruct (c =? "%")%char.
    + destruct (match _strtime_handlers !! c' with
                | Some fn => fn tuple
                | None => Ok (String "%" (String c' EmptyString))
                end) as [piece|e]; [|reflexivity].
      cbn [mbind result_bind].
      rewrite (IHs (res ++ [piece])%list), (IHs ([] ++ [piece])%list).
      destruct (strftime_loop s tuple []) as [r|e]; cbn; [|reflexivity].
      rewrite <- app_assoc. reflexivity.
    + rewrite (IHc (res ++ [String c EmptyString])%list),
        (IHc ([] ++ [String c EmptyString])%list).
      destruct (strftime_loop (String c' s) tuple []) as [r|e]; cbn; [|reflexivity].
      rewrite <- app_assoc. reflexivity.
Qed.

Lemma strftime_loop_cons_code code rest tuple :
  strftime (String "%" (String code rest)) tuple
  = (piece ← match _strtime_handlers !! code with
             | Some fn => fn tuple
             | None => Ok (String "%" (String code EmptyString))
             end;
     tail ← strftime rest tuple;
     Ok (piece +:+ tail)).
Proof.
  unfold strftime. rewrite strftime_loop_eq.
  change ("%" =? "%")%char with true. cbn iota.
  destruct (match _strtime_handlers !! code with
            | Some fn => fn tuple
            | None => Ok (String "%" (String code EmptyString))
            end) as [piece|e]; [|reflexivity].
  cbn [mbind result_bind]. rewrite strftime_loop_acc.
  destruct (strftime_loop rest tuple []) as [r|e]; [|reflexivity].
  cbn [mbind result_bind app]. rewrite concat_cons. reflexivity.
Qed.

Lemma strftime_loop_cons_plain c rest tuple :
  c <> "%"%char \/ rest = EmptyString ->
  strftime (String c rest) tuple
  = (tail ← strftime rest tuple; Ok (String c tail)).
Proof.
  intros H. unfold strftime.
  assert (strftime_loop (String c rest) tuple []
          = strftime_loop rest tuple ([] ++ [String c EmptyString])%list) as ->.
  { rewrite strftime_loop_eq. destruct (Ascii.eqb_spec c "%") as [->|Hc].
    - destruct H as [H| ->]; [congruence | reflexivity].
    - destruct rest; reflexivity. }
  rewrite strftime_loop_acc.
  destruct (strftime_loop rest tuple []) as [r|e]; [|reflexivity].
  cbn [mbind result_bind app]. rewrite concat_cons. reflexivity.
Qed.

Lemma handlers_domain code :
  is_Some (_strtime_handlers !! code) <-> code ∈ handled_codes.
Proof.
  rewrite <- elem_of_dom. unfold _strtime_handlers.
  rewrite dom_list_to_map_L, elem_of_list_to_set. reflexivity.
Qed.

(** * The calendar conversions *)

(** C2: for every second count [s >= 0] and every time-zone record,
    [mktime(localtime(s))] is exactly [s] plus the offset
    [_get_local_utc_offset_seconds] applies, which is the bias alone
    ([Bias * 60], no daylight bias) because [localtime] reports
    [tm_isdst = 0]; hence the round trip differs from [s] whenever that
    offset is not zero. *)
Theorem mktime_localtime_offset tzi st s :
  0 <= s ->
  exists tm, localtime st (Some s) = Ok tm
    /\ tm_isdst tm = 0
    /\ _get_local_utc_offset_seconds tzi (tm_isdst tm) = Bias tzi * 60
    /\ mktime tzi tm = s + Bias tzi * 60
    /\ (Bias tzi * 60 <> 0 -> mktime tzi tm <> s).
Proof.
  intros Hs.
  destruct (localtime_nonneg st s Hs)
    as (y & k & mlen & d & Hy & Hk & Hd & Hyd & Hdays & Htm).
  eexists. split; [exact Htm|].
  assert (mktime tzi
            (mk_struct_time [] y (1 + Z.of_nat k) d (s / 60 / 60 mod 24)
               (s / 60 mod 60) (s mod 60) ((s / 60 / 60 / 24 + 3) mod 7)
               (d + py_sum (take k (leap_patched y))) 0)
          = s + Bias tzi * 60) as Hmk.
  { unfold mktime, _get_local_utc_offset_seconds.
    cbn [tm_year tm_mon tm_mday tm_hour tm_min tm_sec tm_isdst].
    fold (span_days 1970 y).
    replace (1 + Z.of_nat k - 1) with (Z.of_nat k) by lia.
    rewrite py_slice_to_take. change (0 >? 0) with false. cbn iota.
    rewrite <- Hdays. rewrite (seconds_recompose s) at 5. lia. }
  rewrite Hmk. cbn [tm_isdst]. repeat split; try reflexivity. lia.
Qed.

Lemma mktime_localtime_offset_witness :
  0 <= 1709164800
  /\ exists tm,
       localtime sample_systemtime (Some 1709164800) = Ok tm
       /\ tm_isdst tm = 0
       /\ _get_local_utc_offset_seconds sample_tzi (tm_isdst tm)
          = Bias sample_tzi * 60
       /\ mktime sample_tzi tm = 1709164800 + Bias sample_tzi * 60
       /\ (Bias sample_tzi * 60 <> 0 -> mktime sample_tzi tm <> 1709164800).
Proof.
  split; [lia|].
  apply (mktime_localtime_offset sample_tzi sample_systemtime 1709164800).
  lia.
Defined.

(** C3: evaluation at [s = -1], one second before the epoch.  The call
    returns without raising, but the year stays 1970 and the month 1, and
    the day of the month and the day of the year are both 0, outside the
    ranges 1-31 and 1-366 the module documents. *)
Theorem localtime_before_epoch_day_zero st :
  localtime st (Some (-1)) = Ok (mk_struct_time [] 1970 1 0 23 59 59 2 0 0).
Proof. vm_compute. reflexivity. Qed.

(** C4: for every [s >= 0] the day of the year [localtime] reports is the
    day of the month plus the lengths of the preceding months (February
    counted as 29 in a leap year), and the weekday, which [_calc_weekday]
    computes from year, month and day by its congruence, is the weekday
    obtained by counting whole days from Thursday 1970-01-01:
    [((s div 86400) + 3) mod 7], with 0 for Monday. *)
Theorem localtime_wday_yday_consistent st s :
  0 <= s ->
  exists tm, localtime st (Some s) = Ok tm
    /\ tm_yday tm
       = tm_mday tm
         + py_sum (py_slice_to
                     (if _is_leap (tm_year tm) then <[1%nat := 29]> _month_days
                      else _month_days)
                     (tm_mon tm - 1))
    /\ tm_yday tm = _calc_yday (tm_year tm) (tm_mon tm) (tm_mday tm)
    /\ _calc_weekday (tm_year tm) (tm_mon tm) (tm_mday tm) = Ok (tm_wday tm)
    /\ tm_wday tm = (s / 86400 + 3) mod 7.
Proof.
  intros Hs.
  destruct (localtime_nonneg st s Hs)
    as (y & k & mlen & d & Hy & Hk & Hd & Hyd & Hdays & Htm).
  eexists. split; [exact Htm|].
  cbn [tm_year tm_mon tm_mday tm_wday tm_yday].
  fold (leap_patched y). unfold _calc_yday.
  replace (1 + Z.of_nat k - 1) with (Z.of_nat k) by lia.
  rewrite py_slice_to_take, <- seconds_days.
  repeat split; try reflexivity.
  replace d with (d - 1 + 1) at 1 by lia.
  rewrite (calc_weekday_days y k mlen (d - 1) Hy Hk). do 2 f_equal. lia.
Qed.

Lemma localtime_wday_yday_consistent_witness :
  0 <= 1709164800
  /\ exists tm,
       localtime sample_systemtime (Some 1709164800) = Ok tm
       /\ tm_yday tm
          = tm_mday tm
            + py_sum (py_slice_to
                        (if _is_leap (tm_year tm) then <[1%nat := 29]> _month_days
                         else _month_days)
                        (tm_mon tm - 1))
       /\ tm_yday tm = _calc_yday (tm_year tm) (tm_mon tm) (tm_mday tm)
       /\ _calc_weekday (tm_year tm) (tm_mon tm) (tm_mday tm) = Ok (tm_wday tm)
       /\ tm_wday tm = (1709164800 / 86400 + 3) mod 7.
Proof.
  split; [lia|].
  apply (localtime_wday_yday_consistent sample_systemtime 1709164800).
  lia.
Defined.

(** C5: whenever [localtime(s)] reports month 2 and day 29, the year is a
    leap year under the rule "divisible by 4 and not by 100, unless
    divisible by 400"; and when it reports 23:59:59 on February 28, the
    next second is 00:00:00 of the same year, on February 29 if the year
    is leap and on March 1 if it is not. *)
Theorem feb29_only_in_leap_years st s tm :
  localtime st (Some s) = Ok tm ->
  (tm_mon tm = 2 -> tm_mday tm = 29 ->
     _is_leap (tm_year tm) = true
     /\ ((tm_year tm mod 4 = 0 /\ tm_year tm mod 100 <> 0)
         \/ tm_year tm mod 400 = 0))
  /\ (tm_mon tm = 2 -> tm_mday tm = 28 ->
      tm_hour tm = 23 -> tm_min tm = 59 -> tm_sec tm = 59 ->
      exists tm', localtime st (Some (s + 1)) = Ok tm'
        /\ tm_year tm' = tm_year tm
        /\ tm_hour tm' = 0 /\ tm_min tm' = 0 /\ tm_sec tm' = 0
        /\ (tm_mon tm', tm_mday tm')
           = if _is_leap (tm_year tm) then (2, 29) else (3, 1)).
Proof.
  intros Htm. destruct (Z.lt_ge_cases s 0) as [Hneg|Hpos].
  { rewrite localtime_neg in Htm by exact Hneg. injection Htm as <-.
    cbn [tm_mon]. split; intros; discriminate. }
  destruct (localtime_nonneg st s Hpos)
    as (y & k & mlen & d & Hy & Hk & Hd & Hyd & Hdays & Heq).
  rewrite Heq in Htm. injection Htm as <-.
  cbn [tm_year tm_mon tm_mday tm_hour tm_min tm_sec]. split.
  - intros Hm Hday. assert (k = 1%nat) by lia. subst k d.
    assert (_is_leap y = true) as Hleap.
    { unfold leap_patched in Hk. destruct (_is_leap y); [reflexivity|].
      injection Hk as <-. lia. }
    split; [exact Hleap | apply _is_leap_rule; exact Hleap].
  - intros Hm Hday Hh Hmi Hsec. assert (k = 1%nat) by lia. subst k d.
    destruct (next_second_new_day s Hh Hmi Hsec) as (Hd1 & Hh1 & Hm1 & Hs1).
    assert (py_sum (take 1 (leap_patched y)) = 31) as H31
      by (unfold leap_patched; destruct (_is_leap y); reflexivity).
    rewrite H31 in *.
    rewrite (localtime_in_year st (s + 1) y 59)
      by (unfold year_days in *; destruct (_is_leap y); lia).
    rewrite Hh1, Hm1, Hs1.
    unfold leap_patched, _calc_weekday. destruct (_is_leap y).
    + change (month_loop (<[1%nat:=29]> _month_days) 59 1) with (28, 2).
      cbn iota. eval_month. eexists. split; [reflexivity|]. repeat split.
    + change (month_loop _month_days 59 1) with (0, 3).
      cbn iota. eval_month. eexists. split; [reflexivity|]. repeat split.
Qed.

Lemma feb29_only_in_leap_years_witness :
  localtime sample_systemtime (Some 1709164799) = Ok feb28_2024
  /\ exists tm',
       localtime sample_systemtime (Some (1709164799 + 1)) = Ok tm'
       /\ tm_year tm' = 2024
       /\ tm_hour tm' = 0 /\ tm_min tm' = 0 /\ tm_sec tm' = 0
       /\ (tm_mon tm', tm_mday tm') = (2, 29).
Proof.
  split; [vm_compute; reflexivity|].
  apply (proj2 (feb29_only_in_leap_years sample_systemtime 1709164799 feb28_2024
                  ltac:(vm_compute; reflexivity)));
    reflexivity.
Defined.

(** C6: on an explicitly supplied second count [gmtime] returns what
    [localtime] returns; it applies no offset of its own, and neither the
    clock reading nor the local time of the system enters the result. *)
Theorem gmtime_is_localtime now st s :
  gmtime now st (Some s) = localtime st (Some s)
  /\ forall now' st', gmtime now' st' (Some s) = gmtime now st (Some s).
Proof.
  split; [reflexivity|]. intros now' st'. unfold gmtime, localtime. reflexivity.
Qed.

(** C10: for every explicit second count [localtime] returns, and the
    DST flag of the result is 0, whatever the seconds and the date are. *)
Theorem localtime_isdst_zero st s :
  exists tm, localtime st (Some s) = Ok tm /\ tm_isdst tm = 0.
Proof.
  destruct (Z.lt_ge_cases s 0) as [Hneg|Hpos].
  - eexists. split; [apply localtime_neg; exact Hneg | reflexivity].
  - destruct (localtime_nonneg st s Hpos) as (y & k & mlen & d & _ & _ & _ & _ & _ & H).
    eexists. split; [exact H | reflexivity].
Qed.


(** * Formatting *)

(** C7: [strftime] scans the format string once, left to right.  A [%]
    followed by a code of the handler table is replaced by what the
    handler renders; a [%] followed by any other code is emitted as the
    two characters themselves, without raising; any other character, and
    a [%] that ends the string, is copied.  The table holds exactly the
    codes of [handled_codes].  On a time whose year, month and day are
    1998, 6 and 6 the format [%Y-%m-%d] gives [1998-06-06], and [%Q]
    gives [%Q]. *)
Theorem strftime_single_pass tuple :
  strftime EmptyString tuple = Ok EmptyString
  /\ (forall code rest fn,
        _strtime_handlers !! code = Some fn ->
        strftime (String "%" (String code rest)) tuple
        = (piece ← fn tuple; tail ← strftime rest tuple; Ok (piece +:+ tail)))
  /\ (forall code rest,
        _strtime_handlers !! code = None ->
        strftime (String "%" (String code rest)) tuple
        = (tail ← strftime rest tuple; Ok (String "%" (String code tail))))
  /\ (forall c rest,
        c <> "%"%char \/ rest = EmptyString ->
        strftime (String c rest) tuple
        = (tail ← strftime rest tuple; Ok (String c tail)))
  /\ (forall code, is_Some (_strtime_handlers !! code) <-> code ∈ handled_codes)
  /\ (forall tm,
        tuple = Some tm -> tm_year tm = 1998 -> tm_mon tm = 6 -> tm_mday tm = 6 ->
        strftime "%Y-%m-%d" tuple = Ok "1998-06-06")
  /\ strftime "%Q" tuple = Ok "%Q"
  /\ strftime "%" tuple = Ok "%".
Proof.
  split; [reflexivity|].
  split. { intros code rest fn H. rewrite strftime_loop_cons_code, H.
           reflexivity. }
  split. { intros code rest H. rewrite strftime_loop_cons_code, H.
           cbn [mbind result_bind]. reflexivity. }
  split. { intros c rest H. apply strftime_loop_cons_plain. exact H. }
  split. { apply handlers_domain. }
  split. { intros [items y mo d h mi sec wd yd dst] -> Hy Hm Hd.
           cbn in Hy, Hm, Hd. subst y mo d. vm_compute. reflexivity. }
  split; vm_compute; reflexivity.
Qed.

Lemma strftime_single_pass_witness :
  _strtime_handlers !! "Q"%char = None
  /\ strftime "%Q-%" None
     = (tail ← strftime "-%" None; Ok (String "%" (String "Q" tail))).
Proof.
  split; [vm_compute; reflexivity|].
  apply (proj1 (proj2 (proj2 (strftime_single_pass None)))).
  vm_compute. reflexivity.
Defined.

(** * Clock metadata *)

(** C8, as the code has it: the name is lower-cased before it is looked
    up.  When the lower-cased name is none of the known clock
    identifiers the call raises [ValueError] (which is not [OSError]);
    when it is one of them the call returns metadata.  For [monotonic]
    the metadata is: resolution 1/frequency, not adjustable, monotonic,
    backed by QueryPerformanceCounter.  The result depends on nothing
    but the name and the stored counter frequency. *)
Theorem get_clock_info_lookup _frequency name :
  _frequency <> 0 ->
  (lower name ∉ known_clocks ->
     get_clock_info _frequency name
     = Raise (ValueError ("unknown clock: " +:+ lower name)))
  /\ (lower name ∈ known_clocks ->
      exists info, get_clock_info _frequency name = Ok info)
  /\ get_clock_info _frequency "monotonic"
     = Ok {| resolution := one_over _frequency; adjustable := false;
             implementation := "QueryPerformanceCounter"; monotonic := true |}
  /\ (forall msg msg', ValueError msg <> OSError msg').
Proof.
  intros Hf. assert ((_frequency =? 0) = false) as Hz by (apply Z.eqb_neq; exact Hf).
  split; [|split; [|split]].
  - intros Hn. unfold get_clock_info, known_clocks in *.
    repeat match goal with
    | |- context [String.eqb ?a ?b] =>
        destruct (String.eqb_spec a b) as [Heq|?];
        [exfalso; apply Hn; rewrite Heq; set_solver|]
    end.
    reflexivity.
  - intros Hin. unfold get_clock_info, known_clocks in *. rewrite Hz.
    repeat match goal with
    | |- context [String.eqb ?a ?b] =>
        destruct (String.eqb_spec a b) as [Heq|?];
        [cbn [orb]; eexists; reflexivity|]
    end.
    exfalso. repeat (apply elem_of_cons in Hin as [?|Hin]; [congruence|]).
    apply elem_of_nil in Hin. exact Hin.
  - unfold get_clock_info. rewrite Hz. reflexivity.
  - intros msg msg'. discriminate.
Qed.

Lemma get_clock_info_lookup_witness :
  10000000 <> 0
  /\ (lower "bogus" ∉ known_clocks)
  /\ get_clock_info 10000000 "bogus" = Raise (ValueError "unknown clock: bogus")
  /\ get_clock_info 10000000 "monotonic"
     = Ok {| resolution := one_over 10000000; adjustable := false;
             implementation := "QueryPerformanceCounter"; monotonic := true |}.
Proof.
  assert (10000000 <> 0) as Hf by lia.
  assert (lower "bogus" ∉ known_clocks) as Hn.
  { change (lower "bogus") with "bogus". unfold known_clocks.
    rewrite !not_elem_of_cons. repeat split; try discriminate.
    apply not_elem_of_nil. }
  split; [exact Hf|]. split; [exact Hn|]. split.
  - apply (proj1 (get_clock_info_lookup 10000000 "bogus" Hf) Hn).
  - apply (proj1 (proj2 (proj2 (get_clock_info_lookup 10000000 "bogus" Hf)))).
Defined.

(** C8, as stated, fails on a name that differs from a known identifier
    by case only: [TIME] is not one of the known identifiers, and the
    call returns the metadata of the [time] clock. *)
Lemma get_clock_info_accepts_upper_case :
  ("TIME" ∉ known_clocks)
  /\ get_clock_info 10000000 "TIME"
     = Ok {| resolution := lit_1e_7; adjustable := true;
             implementation := "GetSystemTimeAsFileTime"; monotonic := false |}.
Proof.
  split; [|vm_compute; reflexivity].
  unfold known_clocks. rewrite !not_elem_of_cons. repeat split; try discriminate.
  apply not_elem_of_nil.
Qed.

(** * The clocks and their nanosecond variants *)

(** The int 10^9 converts to the float 1e9 without rounding, so
    multiplying a float by the int is multiplying it by [1e9]. *)
Lemma float_of_int_1e9 : float_of_int 1000000000 = Ok float_1e9.
Proof. vm_compute. reflexivity. Qed.

Lemma float_mul_int_1e9 v :
  float_mul_int v 1000000000 = Ok (float_mul v float_1e9).
Proof. unfold float_mul_int. rewrite float_of_int_1e9. reflexivity. Qed.

(** [int] drops the fraction: the result has the sign of the float and
    the largest magnitude that does not exceed the float's. *)
Lemma py_int_toward_zero s m e z :
  py_int (SpecFloat.S754_finite s m e) = Ok z ->
  (if s then z <= 0 else 0 <= z)
  /\ Z.abs z * float_den e <= float_num m e < (Z.abs z + 1) * float_den e.
Proof.
  unfold py_int, float_num, float_den. intros H. injection H as <-.
  destruct (Z.leb_spec 0 e) as [He|He].
  - rewrite (Z.max_r 0 e), (Z.max_l 0 (- e)) by lia.
    change (2 ^ 0) with 1.
    assert (0 < 2 ^ e) by (apply Z.pow_pos_nonneg; lia).
    destruct s; nia.
  - rewrite (Z.max_l 0 e), (Z.max_r 0 (- e)) by lia.
    change (2 ^ 0) with 1.
    assert (0 < 2 ^ (- e)) as Hp by (apply Z.pow_pos_nonneg; lia).
    pose proof (Z.div_mod (Z.pos m) (2 ^ (- e)) ltac:(lia)) as Hdm.
    pose proof (Z.mod_pos_bound (Z.pos m) (2 ^ (- e)) Hp) as Hmod.
    assert (0 <= Z.pos m / 2 ^ (- e)) as Hq by (apply Z.div_pos; lia).
    destruct s.
    + split; [lia|]. rewrite Z.abs_opp, Z.abs_eq by lia. nia.
    + split; [lia|]. rewrite Z.abs_eq by lia. nia.
Qed.

Lemma bind_ns_ok (r : result float) v :
  r = Ok v ->
  (w ← r; x ← float_mul_int w 1000000000; py_int x) = py_int (float_mul v float_1e9).
Proof. intros ->. cbn [mbind result_bind]. rewrite float_mul_int_1e9. reflexivity. Qed.

Lemma bind_ns_raise (r : result float) err :
  r = Raise err ->
  (w ← r; x ← float_mul_int w 1000000000; py_int x) = Raise err.
Proof. intros ->. reflexivity. Qed.

(** C9: every [_ns] clock is [int(v * 1e9)] of the value [v] its
    seconds clock returns: for [monotonic_ns], [process_time_ns],
    [thread_time_ns] and [time_ns], when the seconds clock returns [v]
    the variant is [int] of the float product of [v] and [1e9], and when
    the seconds clock raises the variant raises the same exception;
    [perf_counter_ns] is [monotonic_ns] (and [perf_counter] is
    [monotonic]).  [int] truncates toward zero: its result has the sign
    of the float and the largest magnitude not above the float's.  It
    does not round: at a counter of 157 and a frequency of 10 MHz the
    product is above 15699.5 and [monotonic_ns] returns 15699. *)
Theorem ns_clocks_truncate os _frequency :
  (forall v, Clocks.monotonic os _frequency = Ok v ->
     Clocks.monotonic_ns os _frequency = py_int (float_mul v float_1e9))
  /\ (forall v, Clocks.process_time os = Ok v ->
        Clocks.process_time_ns os = py_int (float_mul v float_1e9))
  /\ (forall v, Clocks.thread_time os = Ok v ->
        Clocks.thread_time_ns os = py_int (float_mul v float_1e9))
  /\ (forall v, Clocks.time os = Ok v ->
        Clocks.time_ns os = py_int (float_mul v float_1e9))
  /\ (forall err,
        (Clocks.monotonic os _frequency = Raise err ->
         Clocks.monotonic_ns os _frequency = Raise err)
        /\ (Clocks.process_time os = Raise err -> Clocks.process_time_ns os = Raise err)
        /\ (Clocks.thread_time os = Raise err -> Clocks.thread_time_ns os = Raise err)
        /\ (Clocks.time os = Raise err -> Clocks.time_ns os = Raise err))
  /\ Clocks.perf_counter_ns = Clocks.monotonic_ns
  /\ Clocks.perf_counter = Clocks.monotonic
  /\ (forall x z, py_int x = Ok z ->
        match x with
        | SpecFloat.S754_finite s m e =>
            (if s then z <= 0 else 0 <= z)
            /\ Z.abs z * float_den e <= float_num m e < (Z.abs z + 1) * float_den e
        | _ => z = 0
        end)
  /\ (exists m e,
        (v ← Clocks.monotonic sample_clock_os 10000000; Ok (float_mul v float_1e9))
        = Ok (SpecFloat.S754_finite false m e)
        /\ (2 * 15699 + 1) * float_den e < 2 * float_num m e
        /\ Clocks.monotonic_ns sample_clock_os 10000000 = Ok 15699).
Proof.
  split; [intros v; apply bind_ns_ok|].
  split; [intros v; apply bind_ns_ok|].
  split; [intros v; apply bind_ns_ok|].
  split; [intros v; apply bind_ns_ok|].
  split; [intros err; repeat split; apply bind_ns_raise|].
  split; [reflexivity|]. split; [reflexivity|]. split.
  - intros [s|s| |s m e] z H; try (injection H as <-; reflexivity);
      try discriminate H.
    exact (py_int_toward_zero s m e z H).
  - exists 8631166278041599%positive, (-39). vm_compute. repeat split.
Qed.

Lemma ns_clocks_truncate_witness :
  Clocks.time sample_clock_os
  = Ok (SpecFloat.S754_finite false 7168756757817016 (-22))
  /\ Clocks.time_ns sample_clock_os
     = py_int (float_mul (SpecFloat.S754_finite false 7168756757817016 (-22)) float_1e9)
  /\ Clocks.time_ns sample_clock_os = Ok 1709164800123457024.
Proof.
  assert (Clocks.time sample_clock_os
          = Ok (SpecFloat.S754_finite false 7168756757817016 (-22))) as H
    by (vm_compute; reflexivity).
  split; [exact H|]. split.
  - apply (proj1 (proj2 (proj2 (proj2 (ns_clocks_truncate sample_clock_os 10000000))))
             _ H).
  - vm_compute. reflexivity.
Defined.

(** The nanosecond readings of the sample system. *)
Example ns_sample_runs :
  Clocks.monotonic_ns sample_clock_os 10000000 = Ok 15699
  /\ Clocks.process_time_ns sample_clock_os = Ok 300000000
  /\ Clocks.thread_time_ns sample_clock_os = Ok 200000000
  /\ Clocks.time_ns sample_clock_os = Ok 1709164800123457024.
Proof. vm_compute. repeat split. Qed.

(** * The time tuple *)

(** Whatever nine items an instance is built from, its tuple part is
    empty. *)
Lemma struct_time_new_items args0 t :
  struct_time_new args0 = Ok t -> tuple_items t = [].
Proof.
  unfold struct_time_new. intros H.
  repeat (destruct args0 as [|? args0]; [discriminate H|]).
  destruct args0; [|discriminate H]. injection H as <-. reflexivity.
Qed.

(** C1: evaluation at the 9-tuples (1998, 6, 6, 16, 26, 11, 5, 157, 0) and
    (2024, 2, 29, 0, 0, 0, 3, 60, 0).  Both instances are built, but each
    has length 0, indexing the first raises [IndexError], and the two
    compare equal and not less, although the tuples they were built from
    differ and the first is lexicographically smaller. *)
Theorem struct_time_tuple_part_empty :
  exists ta tb,
    struct_time_new [1998; 6; 6; 16; 26; 11; 5; 157; 0] = Ok ta
    /\ struct_time_new [2024; 2; 29; 0; 0; 0; 3; 60; 0] = Ok tb
    /\ struct_time_len ta = 0
    /\ struct_time_getitem ta 0 = Raise IndexError
    /\ tuple_eqb [1998; 6; 6; 16; 26; 11; 5; 157; 0]
         [2024; 2; 29; 0; 0; 0; 3; 60; 0] = false
    /\ struct_time_eqb ta tb = true
    /\ tuple_ltb [1998; 6; 6; 16; 26; 11; 5; 157; 0]
         [2024; 2; 29; 0; 0; 0; 3; 60; 0] = true
    /\ struct_time_ltb ta tb = false.
Proof. do 2 eexists. repeat split. Qed.

(** * More on the calendar conversions *)

(** ** From a date back to its seconds *)

Lemma py_sum_nonneg l : Forall (fun x => 0 < x) l -> 0 <= py_sum l.
Proof.
  induction 1 as [|x l Hx _ IH]; [unfold py_sum; cbn; lia|].
  rewrite py_sum_cons. lia.
Qed.

Lemma py_sum_take_le (l : list Z) (k : nat) mlen :
  Forall (fun x => 0 < x) l -> l !! k = Some mlen ->
  0 <= py_sum (take k l) /\ py_sum (take k l) + mlen <= py_sum l.
Proof.
  intros Hpos. revert k. induction Hpos as [|x l Hx Hl IH]; intros k Hk.
  - destruct k; discriminate Hk.
  - destruct k as [|k].
    + injection Hk as <-. change (take 0 (x :: l)) with (@nil Z).
      rewrite py_sum_cons. pose proof (py_sum_nonneg l Hl).
      change (py_sum []) with 0. lia.
    + change (take (S k) (x :: l)) with (x :: take k l).
      change ((x :: l) !! S k) with (l !! k) in Hk.
      rewrite !py_sum_cons. destruct (IH k Hk). lia.
Qed.

(** A day number inside month [k] makes the loop stop at month [k]. *)
Lemma month_loop_complete (mdays : list Z) (k : nat) mlen r month :
  Forall (fun x => 0 < x) mdays -> mdays !! k = Some mlen -> 0 <= r < mlen ->
  month_loop mdays (py_sum (take k mdays) + r) month = (r, month + Z.of_nat k).
Proof.
  intros Hpos. revert k month. induction Hpos as [|x l Hx Hl IH]; intros k month Hk Hr.
  - destruct k; discriminate Hk.
  - destruct k as [|k].
    + injection Hk as <-. change (py_sum (take 0 (x :: l))) with 0.
      rewrite month_loop_stop by lia. f_equal; lia.
    + change (take (S k) (x :: l)) with (x :: take k l).
      change ((x :: l) !! S k) with (l !! k) in Hk.
      rewrite py_sum_cons. cbn [month_loop].
      destruct (py_sum_take_le l k mlen Hl Hk) as [H0 _].
      destruct (Z.gtb_spec (x + py_sum (take k l) + r + 1) x); [|lia].
      replace (x + py_sum (take k l) + r - x) with (py_sum (take k l) + r) by lia.
      rewrite (IH k (month + 1) Hk Hr). f_equal. lia.
Qed.

(** The broken-down time of a calendar date at a time of day. *)
Lemma localtime_of_date st y (k : nat) mlen d h mi sec :
  1970 <= y -> leap_patched y !! k = Some mlen -> 1 <= d <= mlen ->
  0 <= h < 24 -> 0 <= mi < 60 -> 0 <= sec < 60 ->
  localtime st
    (Some ((span_days 1970 y + py_sum (take k (leap_patched y)) + (d - 1)) * 86400
           + h * 3600 + mi * 60 + sec))
  = Ok (mk_struct_time [] y (1 + Z.of_nat k) d h mi sec
          ((span_days 1970 y + py_sum (take k (leap_patched y)) + (d - 1) + 3) mod 7)
          (d + py_sum (take k (leap_patched y))) 0).
Proof.
  intros Hy Hk Hd Hh Hmi Hsec.
  destruct (py_sum_take_le _ k mlen (leap_patched_pos y) Hk) as [H0 Hle].
  rewrite leap_patched_sum in Hle.
  pose proof (span_days_nonneg 1970 y) as Hsp.
  set (D := span_days 1970 y + py_sum (take k (leap_patched y)) + (d - 1)).
  set (S0 := D * 86400 + h * 3600 + mi * 60 + sec).
  assert (S0 / 60 / 60 / 24 = D /\ S0 / 60 / 60 mod 24 = h
          /\ S0 / 60 mod 60 = mi /\ S0 mod 60 = sec) as (E1 & E2 & E3 & E4).
  { subst S0. clearbody D. clear -Hh Hmi Hsec. Z.div_mod_to_equations. lia. }
  rewrite (localtime_in_year st S0 y (py_sum (take k (leap_patched y)) + (d - 1)))
    by (subst D; lia).
  rewrite (month_loop_complete _ k mlen (d - 1) 1 (leap_patched_pos y) Hk) by lia.
  rewrite E2, E3, E4. replace (d - 1 + 1) with d by lia.
  replace d with (d - 1 + 1) at 1 by lia.
  rewrite (calc_weekday_days y k mlen (d - 1) Hy Hk).
  unfold mbind, result_bind, struct_time_new, _calc_yday.
  replace (1 + Z.of_nat k - 1) with (Z.of_nat k) by lia.
  rewrite py_slice_to_take. subst D. reflexivity.
Qed.

Lemma py_getitem_nonneg {A} (l : list A) i x :
  0 <= i -> py_getitem l i = Ok x -> l !! Z.to_nat i = Some x.
Proof.
  intros Hi. unfold py_getitem.
  assert ((i <? 0) = false) as Hlt by (apply Z.ltb_ge; lia).
  rewrite !Hlt. destruct (l !! Z.to_nat i); [|discriminate].
  intros H. injection H as <-. reflexivity.
Qed.

(** X1: [localtime] undoes [mktime] on calendar dates.  For a tuple that
    names a date on or after 1970 (month 1-12, day within the month's
    leap-patched length) and a time of day (hour 0-23, minute and second
    0-59), taking the offset [mktime] added off its result and converting
    back gives the same year, month, day, hour, minute and second, with
    the weekday and the day of the year recomputed and the DST flag 0. *)
Theorem localtime_mktime_roundtrip tzi st t mlen :
  1970 <= tm_year t -> 1 <= tm_mon t <= 12 ->
  py_getitem (leap_patched (tm_year t)) (tm_mon t - 1) = Ok mlen ->
  1 <= tm_mday t <= mlen ->
  0 <= tm_hour t < 24 -> 0 <= tm_min t < 60 -> 0 <= tm_sec t < 60 ->
  exists t',
    localtime st
      (Some (mktime tzi t - _get_local_utc_offset_seconds tzi (tm_isdst t)))
    = Ok t'
    /\ tm_year t' = tm_year t /\ tm_mon t' = tm_mon t /\ tm_mday t' = tm_mday t
    /\ tm_hour t' = tm_hour t /\ tm_min t' = tm_min t /\ tm_sec t' = tm_sec t
    /\ _calc_weekday (tm_year t) (tm_mon t) (tm_mday t) = Ok (tm_wday t')
    /\ tm_yday t' = _calc_yday (tm_year t) (tm_mon t) (tm_mday t)
    /\ tm_isdst t' = 0.
Proof.
  destruct t as [items y mo d h mi sec wd yd dst].
  cbn [tm_year tm_mon tm_mday tm_hour tm_min tm_sec tm_isdst].
  intros Hy Hmo Hlen Hd Hh Hmi Hsec.
  apply py_getitem_nonneg in Hlen; [|lia].
  remember (Z.to_nat (mo - 1)) as k eqn:Ek.
  assert (mo = 1 + Z.of_nat k) as -> by lia.
  pose proof (localtime_of_date st y k mlen d h mi sec Hy Hlen Hd Hh Hmi Hsec) as Hlt.
  eexists. split.
  - unfold mktime. cbn [tm_year tm_mon tm_mday tm_hour tm_min tm_sec tm_isdst].
    fold (span_days 1970 y).
    replace (1 + Z.of_nat k - 1) with (Z.of_nat k) by lia.
    rewrite py_slice_to_take.
    match goal with |- localtime _ (Some ?a) = _ =>
      replace a with ((span_days 1970 y + py_sum (take k (leap_patched y)) + (d - 1))
                      * 86400 + h * 3600 + mi * 60 + sec) by lia
    end.
    exact Hlt.
  - cbn [tm_year tm_mon tm_mday tm_hour tm_min tm_sec tm_wday tm_yday tm_isdst].
    repeat split.
    + replace d with (d - 1 + 1) at 1 by lia.
      rewrite (calc_weekday_days y k mlen (d - 1) Hy Hlen). do 2 f_equal; lia.
    + unfold _calc_yday. replace (1 + Z.of_nat k - 1) with (Z.of_nat k) by lia.
      rewrite py_slice_to_take. reflexivity.
Qed.

Lemma localtime_mktime_roundtrip_witness :
  (1970 <= tm_year leap_day_2024 /\ 1 <= tm_mon leap_day_2024 <= 12
   /\ py_getitem (leap_patched (tm_year leap_day_2024)) (tm_mon leap_day_2024 - 1)
      = Ok 29
   /\ 1 <= tm_mday leap_day_2024 <= 29
   /\ 0 <= tm_hour leap_day_2024 < 24 /\ 0 <= tm_min leap_day_2024 < 60
   /\ 0 <= tm_sec leap_day_2024 < 60)
  /\ exists t',
      localtime sample_systemtime
        (Some (mktime sample_tzi leap_day_2024
               - _get_local_utc_offset_seconds sample_tzi (tm_isdst leap_day_2024)))
      = Ok t'
      /\ tm_year t' = 2024 /\ tm_mon t' = 2 /\ tm_mday t' = 29
      /\ tm_hour t' = 8 /\ tm_min t' = 30 /\ tm_sec t' = 15
      /\ _calc_weekday 2024 2 29 = Ok (tm_wday t')
      /\ tm_yday t' = _calc_yday 2024 2 29
      /\ tm_isdst t' = 0.
Proof.
  assert (1970 <= tm_year leap_day_2024 /\ 1 <= tm_mon leap_day_2024 <= 12
   /\ py_getitem (leap_patched (tm_year leap_day_2024)) (tm_mon leap_day_2024 - 1)
      = Ok 29
   /\ 1 <= tm_mday leap_day_2024 <= 29
   /\ 0 <= tm_hour leap_day_2024 < 24 /\ 0 <= tm_min leap_day_2024 < 60
   /\ 0 <= tm_sec leap_day_2024 < 60) as H
    by (cbn [leap_day_2024 tm_year tm_mon tm_mday tm_hour tm_min tm_sec];
        repeat split; try lia; reflexivity).
  split; [exact H|].
  destruct H as (H1 & H2 & H3 & H4 & H5 & H6 & H7).
  apply (localtime_mktime_roundtrip sample_tzi sample_systemtime leap_day_2024 29
           H1 H2 H3 H4 H5 H6 H7).
Defined.

(** Two second counts with the same broken-down time are equal. *)
Lemma localtime_seconds_inj st st' s s' :
  localtime st (Some s) = localtime st' (Some s') -> s = s'.
Proof.
  intros H. rewrite (seconds_recompose s), (seconds_recompose s').
  destruct (Z.lt_ge_cases s 0) as [Hs|Hs], (Z.lt_ge_cases s' 0) as [Hs'|Hs'].
  - rewrite !localtime_neg in H by assumption. injection H as H1 H2 H3 H4. lia.
  - rewrite localtime_neg in H by assumption.
    destruct (localtime_nonneg st' s' Hs') as (y & k & mlen & d & _ & _ & Hd & _ & _ & E).
    rewrite E in H. injection H as H1 H2 H3 H4 H5 H6.
    assert (s / 60 / 60 / 24 < 0) by (Z.div_mod_to_equations; lia). lia.
  - rewrite (localtime_neg st' s') in H by assumption.
    destruct (localtime_nonneg st s Hs) as (y & k & mlen & d & _ & _ & Hd & _ & _ & E).
    rewrite E in H. injection H as H1 H2 H3 H4 H5 H6.
    assert (s' / 60 / 60 / 24 < 0) by (Z.div_mod_to_equations; lia). lia.
  - destruct (localtime_nonneg st s Hs) as (y & k & mlen & d & _ & _ & _ & _ & Hdays & E).
    destruct (localtime_nonneg st' s' Hs')
      as (y' & k' & mlen' & d' & _ & _ & _ & _ & Hdays' & E').
    rewrite E, E' in H. injection H as H1 H2 H3 H4 H5 H6.
    assert (k = k') by lia. subst y' k' d'.
    rewrite Hdays, Hdays'. lia.
Qed.

(** X2: [localtime] is injective on explicit second counts: two counts
    with the same broken-down time are equal, before the epoch as well
    as after it. *)
Theorem localtime_injective st st' s s' :
  localtime st (Some s) = localtime st' (Some s') -> s = s'.
Proof. exact (localtime_seconds_inj st st' s s'). Qed.

Lemma localtime_injective_witness :
  localtime sample_systemtime (Some (-86400 + 86400))
  = localtime sample_systemtime (Some 0)
  /\ -86400 + 86400 = 0.
Proof.
  split; [vm_compute; reflexivity|].
  apply (localtime_injective sample_systemtime sample_systemtime (-86400 + 86400) 0).
  vm_compute. reflexivity.
Defined.

Lemma calc_weekday_date year (k : nat) mlen d :
  1970 <= year -> leap_patched year !! k = Some mlen ->
  _calc_weekday year (1 + Z.of_nat k) d
  = Ok ((span_days 1970 year + py_sum (take k (leap_patched year)) + (d - 1) + 3)
        mod 7).
Proof.
  intros Hy Hk. replace d with (d - 1 + 1) at 1 by lia.
  apply (calc_weekday_days year k mlen (d - 1) Hy Hk).
Qed.

(** X3: the two branches of [localtime] agree.  When the system local
    time is a date on or after 1970 with a time of day in range, the
    call without an argument copies its six fields.  [mktime] reads the
    time-zone record anew at each call, whereas [timezone] was computed
    from the record read at import.  The call with the seconds [mktime]
    gives for that result, less the offset of the record [mktime] read,
    returns the very same tuple (weekday and day of the year included);
    with [timezone] subtracted instead, it does so exactly when the bias
    of the zone has not changed since import. *)
Theorem localtime_now_agrees tzi_import tzi_call st mlen :
  1970 <= wYear st -> 1 <= wMonth st <= 12 ->
  py_getitem (leap_patched (wYear st)) (wMonth st - 1) = Ok mlen ->
  1 <= wDay st <= mlen ->
  0 <= wHour st < 24 -> 0 <= wMinute st < 60 -> 0 <= wSecond st < 60 ->
  exists tm,
    localtime st None = Ok tm
    /\ tm_year tm = wYear st /\ tm_mon tm = wMonth st /\ tm_mday tm = wDay st
    /\ tm_hour tm = wHour st /\ tm_min tm = wMinute st /\ tm_sec tm = wSecond st
    /\ localtime st
         (Some (mktime tzi_call tm - _get_local_utc_offset_seconds tzi_call 0))
       = Ok tm
    /\ (localtime st (Some (mktime tzi_call tm - timezone tzi_import)) = Ok tm
        <-> Bias tzi_call = Bias tzi_import).
Proof.
  destruct st as [y mo dow d h mi sec ms].
  cbn [wYear wMonth wDay wHour wMinute wSecond].
  intros Hy Hmo Hlen Hd Hh Hmi Hsec.
  apply py_getitem_nonneg in Hlen; [|lia].
  remember (Z.to_nat (mo - 1)) as k eqn:Ek.
  assert (mo = 1 + Z.of_nat k) as -> by lia.
  unfold localtime at 1. cbn [wYear wMonth wDay wHour wMinute wSecond].
  assert ((d =? 0) = false) as -> by (apply Z.eqb_neq; lia).
  cbn [mbind result_bind].
  rewrite (calc_weekday_date y k mlen d Hy Hlen).
  cbn [mbind result_bind]. unfold struct_time_new, _calc_yday. cbn zeta.
  change (tuple_new None) with (@nil Z).
  replace (1 + Z.of_nat k - 1) with (Z.of_nat k) by lia.
  rewrite py_slice_to_take.
  eexists. split; [reflexivity|].
  cbn [tm_year tm_mon tm_mday tm_hour tm_min tm_sec].
  repeat (split; [reflexivity|]).
  unfold mktime, timezone, _get_local_utc_offset_seconds.
  cbn [tm_year tm_mon tm_mday tm_hour tm_min tm_sec tm_isdst].
  fold (span_days 1970 y).
  replace (1 + Z.of_nat k - 1) with (Z.of_nat k) by lia.
  rewrite py_slice_to_take. change (0 >? 0) with false. cbn iota.
  set (local_secs := (span_days 1970 y + py_sum (take k (leap_patched y)) + (d - 1))
                     * 86400 + h * 3600 + mi * 60 + sec).
  pose proof (localtime_of_date (Build_SYSTEMTIME y (1 + Z.of_nat k) dow d h mi sec ms)
                y k mlen d h mi sec Hy Hlen Hd Hh Hmi Hsec) as Hback.
  fold local_secs in Hback.
  split.
  - match goal with |- localtime _ (Some ?a) = _ =>
      replace a with local_secs by (subst local_secs; lia)
    end.
    exact Hback.
  - split.
    + intros H. rewrite <- Hback in H. apply localtime_seconds_inj in H.
      subst local_secs. lia.
    + intros Hb.
      match goal with |- localtime _ (Some ?a) = _ =>
        replace a with local_secs by (subst local_secs; lia)
      end.
      exact Hback.
Qed.

Lemma localtime_now_agrees_witness :
  (1970 <= wYear sample_systemtime /\ 1 <= wMonth sample_systemtime <= 12
   /\ py_getitem (leap_patched (wYear sample_systemtime))
        (wMonth sample_systemtime - 1) = Ok 29
   /\ 1 <= wDay sample_systemtime <= 29
   /\ 0 <= wHour sample_systemtime < 24 /\ 0 <= wMinute sample_systemtime < 60
   /\ 0 <= wSecond sample_systemtime < 60)
  /\ exists tm,
      localtime sample_systemtime None = Ok tm
      /\ tm_year tm = 2024 /\ tm_mon tm = 2 /\ tm_mday tm = 29
      /\ tm_hour tm = 8 /\ tm_min tm = 0 /\ tm_sec tm = 0
      /\ localtime sample_systemtime
           (Some (mktime sample_tzi_later tm
                  - _get_local_utc_offset_seconds sample_tzi_later 0))
         = Ok tm
      /\ (localtime sample_systemtime
            (Some (mktime sample_tzi_later tm - timezone sample_tzi)) = Ok tm
          <-> Bias sample_tzi_later = Bias sample_tzi).
Proof.
  assert (1970 <= wYear sample_systemtime /\ 1 <= wMonth sample_systemtime <= 12
   /\ py_getitem (leap_patched (wYear sample_systemtime))
        (wMonth sample_systemtime - 1) = Ok 29
   /\ 1 <= wDay sample_systemtime <= 29
   /\ 0 <= wHour sample_systemtime < 24 /\ 0 <= wMinute sample_systemtime < 60
   /\ 0 <= wSecond sample_systemtime < 60) as H
    by (cbn [sample_systemtime wYear wMonth wDay wHour wMinute wSecond];
        repeat split; try lia; reflexivity).
  split; [exact H|].
  destruct H as (H1 & H2 & H3 & H4 & H5 & H6 & H7).
  apply (localtime_now_agrees sample_tzi sample_tzi_later sample_systemtime 29
           H1 H2 H3 H4 H5 H6 H7).
Defined.

(** Indexing succeeds exactly on the positions [-len .. len - 1]. *)
Lemma py_getitem_in_range {A} (l : list A) i :
  - Z.of_nat (length l) <= i < Z.of_nat (length l) ->
  exists x, py_getitem l i = Ok x.
Proof.
  intros Hi. unfold py_getitem.
  set (j := if i <? 0 then i + Z.of_nat (length l) else i).
  assert (0 <= j < Z.of_nat (length l)) as Hj
    by (subst j; destruct (Z.ltb_spec i 0); lia).
  assert ((j <? 0) = false) as -> by (apply Z.ltb_ge; lia).
  destruct (lookup_lt_is_Some_2 l (Z.to_nat j) ltac:(lia)) as [x Hx].
  rewrite Hx. exists x. reflexivity.
Qed.

Lemma py_getitem_out_of_range {A} (l : list A) i :
  i < - Z.of_nat (length l) \/ Z.of_nat (length l) <= i ->
  py_getitem l i = Raise IndexError.
Proof.
  intros Hi. unfold py_getitem.
  set (j := if i <? 0 then i + Z.of_nat (length l) else i).
  destruct (Z.ltb_spec j 0) as [Hj|Hj]; [reflexivity|].
  assert (Z.of_nat (length l) <= j) as Hge
    by (subst j; destruct (Z.ltb_spec i 0); lia).
  rewrite (lookup_ge_None_2 l (Z.to_nat j)) by lia. reflexivity.
Qed.

Lemma calc_weekday_ok year month day :
  -11 <= month <= 12 ->
  exists w, _calc_weekday year month day = Ok w /\ 0 <= w <= 6.
Proof.
  intros Hm. unfold _calc_weekday.
  destruct (py_getitem_in_range _calc_weekday_t (month - 1)) as [t Ht];
    [change (Z.of_nat (length _calc_weekday_t)) with 12; lia|].
  rewrite Ht. cbn [mbind result_bind]. eexists. split; [reflexivity|].
  pose proof (Z.mod_pos_bound
    (((year - (if month <? 3 then 1 else 0)
       + (year - (if month <? 3 then 1 else 0)) / 4
       - (year - (if month <? 3 then 1 else 0)) / 100
       + (year - (if month <? 3 then 1 else 0)) / 400 + t + day) mod 7) - 1) 7
    ltac:(lia)). lia.
Qed.

(** X4: the [day == 0] branch of [localtime()].  A system time whose
    day is 0 is taken as the last day of the month before: December 31
    of the year before when the month is January, and otherwise the
    leap-patched length of the previous month of the same year. *)
Theorem localtime_now_day_zero st :
  wDay st = 0 -> 1 <= wMonth st <= 12 ->
  exists tm,
    localtime st None = Ok tm
    /\ (wMonth st = 1 ->
        tm_year tm = wYear st - 1 /\ tm_mon tm = 12 /\ tm_mday tm = 31)
    /\ (wMonth st <> 1 ->
        tm_year tm = wYear st /\ tm_mon tm = wMonth st - 1
        /\ py_getitem (leap_patched (wYear st)) (wMonth st - 2) = Ok (tm_mday tm)).
Proof.
  destruct st as [y mo dow d h mi sec ms].
  cbn [wYear wMonth wDay wHour wMinute wSecond].
  intros -> Hmo. unfold localtime.
  cbn [wYear wMonth wDay wHour wMinute wSecond]. change (0 =? 0) with true.
  cbn iota zeta.
  destruct (Z.eqb_spec (mo - 1) 0) as [E|E].
  - assert (py_getitem (leap_patched (y - 1)) (12 - 1) = Ok 31) as ->
      by (unfold leap_patched; destruct (_is_leap (y - 1)); reflexivity).
    cbn [mbind result_bind].
    destruct (calc_weekday_ok (y - 1) 12 31 ltac:(lia)) as (w & -> & _).
    cbn [mbind result_bind]. eexists. split; [reflexivity|].
    cbn [tm_year tm_mon tm_mday]. split; intros; [repeat split | lia].
  - destruct (py_getitem_in_range (leap_patched y) (mo - 1 - 1)) as [x Hx].
    { replace (length (leap_patched y)) with 12%nat
        by (unfold leap_patched; destruct (_is_leap y); reflexivity). lia. }
    rewrite Hx. cbn [mbind result_bind].
    destruct (calc_weekday_ok y (mo - 1) x ltac:(lia)) as (w & -> & _).
    cbn [mbind result_bind]. eexists. split; [reflexivity|].
    cbn [tm_year tm_mon tm_mday]. split; intros; [lia|].
    repeat split. replace (mo - 2) with (mo - 1 - 1) by lia. exact Hx.
Qed.

Lemma localtime_now_day_zero_witness :
  (0 = 0 /\ 1 <= 1 <= 12)
  /\ exists tm,
      localtime (Build_SYSTEMTIME 2024 1 0 0 8 0 0 0) None = Ok tm
      /\ (1 = 1 -> tm_year tm = 2024 - 1 /\ tm_mon tm = 12 /\ tm_mday tm = 31)
      /\ (1 <> 1 ->
          tm_year tm = 2024 /\ tm_mon tm = 1 - 1
          /\ py_getitem (leap_patched 2024) (1 - 2) = Ok (tm_mday tm)).
Proof.
  split; [lia|].
  apply (localtime_now_day_zero (Build_SYSTEMTIME 2024 1 0 0 8 0 0 0)); cbn; lia.
Defined.

(** ** Periods, ranges and carries *)

Lemma _is_leap_400 y : _is_leap (y + 400) = _is_leap y.
Proof.
  unfold _is_leap.
  replace ((y + 400) mod 4) with (y mod 4) by (Z.div_mod_to_equations; lia).
  replace ((y + 400) mod 100) with (y mod 100) by (Z.div_mod_to_equations; lia).
  replace ((y + 400) mod 400) with (y mod 400) by (Z.div_mod_to_equations; lia).
  reflexivity.
Qed.

Lemma leaps_upto_400 y : leaps_upto (y + 400) = leaps_upto y + 97.
Proof. unfold leaps_upto. Z.div_mod_to_equations. lia. Qed.

(** X5: from 1970 on, adding 400 to the year of a tuple moves [mktime]
    by exactly 146097 days. *)
Theorem mktime_400_years tzi items y mo d h mi sec wd yd dst :
  1970 <= y ->
  mktime tzi (mk_struct_time items (y + 400) mo d h mi sec wd yd dst)
  = mktime tzi (mk_struct_time items y mo d h mi sec wd yd dst) + 146097 * 86400.
Proof.
  intros Hy. unfold mktime.
  cbn [tm_year tm_mon tm_mday tm_hour tm_min tm_sec tm_isdst].
  fold (span_days 1970 (y + 400)). fold (span_days 1970 y).
  replace (leap_patched (y + 400)) with (leap_patched y)
    by (unfold leap_patched; rewrite _is_leap_400; reflexivity).
  rewrite !span_days_closed by lia.
  replace (y + 400 - 1) with (y - 1 + 400) by lia.
  rewrite leaps_upto_400. lia.
Qed.

Lemma mktime_400_years_witness :
  1970 <= 2000
  /\ mktime sample_tzi (mk_struct_time [] (2000 + 400) 2 29 8 30 15 0 0 0)
     = mktime sample_tzi (mk_struct_time [] 2000 2 29 8 30 15 0 0 0)
       + 146097 * 86400.
Proof.
  split; [lia|]. apply (mktime_400_years sample_tzi [] 2000 2 29 8 30 15 0 0 0). lia.
Defined.

(** X6: [_calc_weekday] has period 400 in the year and period 7 in the
    day, for all arguments (an [IndexError] repeats as well). *)
Theorem calc_weekday_periodic year month day :
  _calc_weekday (year + 400) month day = _calc_weekday year month day
  /\ _calc_weekday year month (day + 7) = _calc_weekday year month day.
Proof.
  unfold _calc_weekday.
  destruct (py_getitem _calc_weekday_t (month - 1)) as [t|e]; [|split; reflexivity].
  cbn [mbind result_bind].
  set (y := year - (if month <? 3 then 1 else 0)).
  replace (year + 400 - (if month <? 3 then 1 else 0)) with (y + 400) by (subst y; lia).
  pose proof (leaps_upto_400 y) as H400. unfold leaps_upto in H400.
  split; f_equal; f_equal.
  - replace (y + 400 + (y + 400) / 4 - (y + 400) / 100 + (y + 400) / 400 + t + day)
      with (y + y / 4 - y / 100 + y / 400 + t + day + 71 * 7) by lia.
    rewrite Z_mod_plus_full. reflexivity.
  - replace (y + y / 4 - y / 100 + y / 400 + t + (day + 7))
      with (y + y / 4 - y / 100 + y / 400 + t + day + 1 * 7) by lia.
    rewrite Z_mod_plus_full. reflexivity.
Qed.

(** X7: [_calc_weekday] returns a weekday 0-6 exactly for the months
    -11 .. 12 (a month below 1 indexes the offset table from its end)
    and raises [IndexError] for every other month. *)
Theorem calc_weekday_month_range year month day :
  (-11 <= month <= 12 ->
   exists w, _calc_weekday year month day = Ok w /\ 0 <= w <= 6)
  /\ (month < -11 \/ 12 < month ->
      _calc_weekday year month day = Raise IndexError).
Proof.
  split; [apply calc_weekday_ok|].
  intros H. unfold _calc_weekday.
  rewrite py_getitem_out_of_range
    by (change (Z.of_nat (length _calc_weekday_t)) with 12; lia).
  reflexivity.
Qed.

Lemma calc_weekday_month_range_witness :
  (-11 <= 0 <= 12 /\ (13 < -11 \/ 12 < 13))
  /\ (exists w, _calc_weekday 2024 0 1 = Ok w /\ 0 <= w <= 6)
  /\ _calc_weekday 2024 13 1 = Raise IndexError.
Proof.
  split; [lia|]. split.
  - apply (proj1 (calc_weekday_month_range 2024 0 1)). lia.
  - apply (proj2 (calc_weekday_month_range 2024 13 1)). lia.
Defined.

(** The time zone enters [mktime] only as an added offset, which is
    [altzone] when the DST flag is positive and [timezone] otherwise; a
    flag of -1 is treated like 0, no guess is made. *)
Lemma mktime_isdst_offset tzi t :
  mktime tzi t
  = mktime (Build_TIME_ZONE_INFORMATION 0 0 0) t
    + (if tm_isdst t >? 0 then altzone tzi else timezone tzi).
Proof.
  unfold mktime, altzone, timezone, _get_local_utc_offset_seconds.
  cbn [Bias DaylightBias]. change (0 >? 0) with false.
  destruct (tm_isdst t >? 0); cbn iota; lia.
Qed.

Lemma py_sum_take_S (l : list Z) (k : nat) x :
  l !! k = Some x -> py_sum (take (S k) l) = py_sum (take k l) + x.
Proof.
  revert k. induction l as [|a l IH]; intros k Hk; [destruct k; discriminate Hk|].
  destruct k as [|k].
  - injection Hk as <-. change (take 1 (a :: l)) with [a].
    change (take 0 (a :: l)) with (@nil Z). rewrite py_sum_cons.
    change (py_sum []) with 0. lia.
  - change (take (S (S k)) (a :: l)) with (a :: take (S k) l).
    change (take (S k) (a :: l)) with (a :: take k l).
    change ((a :: l) !! S k) with (l !! k) in Hk.
    rewrite !py_sum_cons, (IH k Hk). lia.
Qed.

Lemma span_days_snoc a b : a <= b -> span_days a (b + 1) = span_days a b + year_days b.
Proof.
  intros H. rewrite !span_days_closed by lia. rewrite (year_days_leaps b).
  replace (b + 1 - 1) with b by lia. lia.
Qed.

(** The preceding-months sum for the month after month [1 + k]. *)
Lemma months_before_next year (k : nat) mlen :
  leap_patched year !! k = Some mlen ->
  py_sum (py_slice_to (leap_patched year) (1 + Z.of_nat k + 1 - 1))
  = py_sum (py_slice_to (leap_patched year) (1 + Z.of_nat k - 1)) + mlen.
Proof.
  intros Hk.
  replace (1 + Z.of_nat k + 1 - 1) with (Z.of_nat (S k)) by lia.
  replace (1 + Z.of_nat k - 1) with (Z.of_nat k) by lia.
  rewrite !py_slice_to_take. apply py_sum_take_S. exact Hk.
Qed.

(** X8: [_calc_yday] numbers the days of a year without gaps: on a
    date with month 1-12 and a day within the month's leap-patched
    length it lies in 1 .. 365 or 366; the next day of the same month,
    and the first day of the next month after the last day of a month,
    have the next number; December 31 has the number of days of the
    year. *)
Theorem calc_yday_gapless year month day mlen :
  1 <= month <= 12 ->
  py_getitem (leap_patched year) (month - 1) = Ok mlen ->
  1 <= day <= mlen ->
  1 <= _calc_yday year month day <= year_days year
  /\ (day < mlen ->
      _calc_yday year month (day + 1) = _calc_yday year month day + 1)
  /\ (day = mlen -> month < 12 ->
      _calc_yday year (month + 1) 1 = _calc_yday year month day + 1)
  /\ (day = mlen -> month = 12 -> _calc_yday year month day = year_days year).
Proof.
  intros Hm Hlen Hd. apply py_getitem_nonneg in Hlen; [|lia].
  remember (Z.to_nat (month - 1)) as k eqn:Ek.
  assert (month = 1 + Z.of_nat k) as -> by lia.
  destruct (py_sum_take_le _ k mlen (leap_patched_pos year) Hlen) as [H0 Hle].
  rewrite leap_patched_sum in Hle.
  unfold _calc_yday. rewrite (months_before_next year k mlen Hlen).
  replace (1 + Z.of_nat k - 1) with (Z.of_nat k) by lia.
  rewrite py_slice_to_take.
  split; [lia|]. split; [intros; lia|]. split; [intros; lia|].
  intros -> Hk12. assert (k = 11%nat) as -> by lia.
  change 11%nat with (Nat.pred 12) in *.
  unfold leap_patched, year_days in *. destruct (_is_leap year);
    injection Hlen as <-; reflexivity.
Qed.

Lemma calc_yday_gapless_witness :
  (1 <= 2 <= 12 /\ py_getitem (leap_patched 2024) (2 - 1) = Ok 29 /\ 1 <= 29 <= 29)
  /\ 1 <= _calc_yday 2024 2 29 <= year_days 2024
  /\ (29 < 29 -> _calc_yday 2024 2 (29 + 1) = _calc_yday 2024 2 29 + 1)
  /\ (29 = 29 -> 2 < 12 -> _calc_yday 2024 (2 + 1) 1 = _calc_yday 2024 2 29 + 1)
  /\ (29 = 29 -> 2 = 12 -> _calc_yday 2024 2 29 = year_days 2024).
Proof.
  split; [repeat split; try lia; reflexivity|].
  apply (calc_yday_gapless 2024 2 29 29); try lia; reflexivity.
Defined.

(** X9: [mktime] carries a day overflow.  From 1970 on, the day after
    the last day of a month converts like the first day of the next
    month, and the day after December 31 like January 1 of the next
    year. *)
Theorem mktime_day_overflow tzi items y mo mlen h mi sec wd yd dst :
  1970 <= y -> 1 <= mo <= 12 ->
  py_getitem (leap_patched y) (mo - 1) = Ok mlen ->
  mktime tzi (mk_struct_time items y mo (mlen + 1) h mi sec wd yd dst)
  = mktime tzi
      (if mo <? 12 then mk_struct_time items y (mo + 1) 1 h mi sec wd yd dst
       else mk_struct_time items (y + 1) 1 1 h mi sec wd yd dst).
Proof.
  intros Hy Hm Hlen. apply py_getitem_nonneg in Hlen; [|lia].
  remember (Z.to_nat (mo - 1)) as k eqn:Ek.
  assert (mo = 1 + Z.of_nat k) as -> by lia.
  destruct (Z.ltb_spec (1 + Z.of_nat k) 12) as [Hlt|Hge]; unfold mktime;
    cbn [tm_year tm_mon tm_mday tm_hour tm_min tm_sec tm_isdst].
  - rewrite (months_before_next y k mlen Hlen). lia.
  - fold (span_days 1970 (y + 1)). fold (span_days 1970 y).
    rewrite span_days_snoc by lia.
    assert (k = 11%nat) as -> by lia.
    change (py_sum (py_slice_to (leap_patched (y + 1)) (1 - 1))) with 0.
    assert (py_sum (py_slice_to (leap_patched y) (1 + Z.of_nat 11 - 1)) + mlen
            = year_days y) as Hyd.
    { unfold leap_patched, year_days in *. destruct (_is_leap y);
        injection Hlen as <-; reflexivity. }
    lia.
Qed.

Lemma mktime_day_overflow_witness :
  (1970 <= 2024 /\ 1 <= 12 <= 12 /\ py_getitem (leap_patched 2024) (12 - 1) = Ok 31)
  /\ mktime sample_tzi (mk_struct_time [] 2024 12 (31 + 1) 0 0 0 0 0 0)
     = mktime sample_tzi
         (if 12 <? 12 then mk_struct_time [] 2024 (12 + 1) 1 0 0 0 0 0 0
          else mk_struct_time [] (2024 + 1) 1 1 0 0 0 0 0 0).
Proof.
  split; [repeat split; try lia; reflexivity|].
  apply (mktime_day_overflow sample_tzi [] 2024 12 31 0 0 0 0 0 0);
    try lia; reflexivity.
Defined.

(** ** Order *)

Lemma span_days_split a b c :
  a <= b -> b <= c -> span_days a c = span_days a b + span_days b c.
Proof. intros H1 H2. rewrite !span_days_closed by lia. lia. Qed.

Lemma py_sum_take_mono (l : list Z) (i j : nat) :
  Forall (fun x => 0 < x) l -> (i <= j)%nat ->
  py_sum (take i l) <= py_sum (take j l).
Proof.
  intros Hpos. revert i j. induction Hpos as [|x l Hx Hl IH]; intros i j Hij.
  - rewrite !take_nil. lia.
  - destruct i as [|i].
    + change (take 0 (x :: l)) with (@nil Z). change (py_sum []) with 0.
      apply py_sum_nonneg. apply Forall_take. constructor; assumption.
    + destruct j as [|j]; [lia|].
      change (take (S i) (x :: l)) with (x :: take i l).
      change (take (S j) (x :: l)) with (x :: take j l).
      rewrite !py_sum_cons. pose proof (IH i j ltac:(lia)). lia.
Qed.

(** Day counts grow with the year, then with the month, then with the day. *)
Lemma day_count_lt y k mlen d y' k' mlen' d' :
  1970 <= y -> leap_patched y !! k = Some mlen -> 1 <= d <= mlen ->
  1970 <= y' -> leap_patched y' !! k' = Some mlen' -> 1 <= d' <= mlen' ->
  y < y' \/ (y = y' /\ ((k < k')%nat \/ (k = k' /\ d < d'))) ->
  span_days 1970 y + py_sum (take k (leap_patched y)) + (d - 1)
  < span_days 1970 y' + py_sum (take k' (leap_patched y')) + (d' - 1).
Proof.
  intros Hy Hk Hd Hy' Hk' Hd' Hlt.
  destruct (py_sum_take_le _ k mlen (leap_patched_pos y) Hk) as [H0 Hle].
  destruct (py_sum_take_le _ k' mlen' (leap_patched_pos y') Hk') as [H0' Hle'].
  rewrite leap_patched_sum in Hle, Hle'.
  destruct Hlt as [Hlt | [<- [Hlt | [<- Hlt]]]].
  - pose proof (span_days_split 1970 (y + 1) y' ltac:(lia) ltac:(lia)) as Hsp.
    pose proof (span_days_nonneg (y + 1) y').
    rewrite span_days_snoc in Hsp by lia. lia.
  - pose proof (py_sum_take_mono (leap_patched y) (S k) k' (leap_patched_pos y)
                  ltac:(lia)) as Hm.
    rewrite (py_sum_take_S _ k mlen Hk) in Hm. lia.
  - lia.
Qed.

Lemma tuple_ltb_total a b :
  length a = length b -> tuple_ltb a b = false -> a = b \/ tuple_ltb b a = true.
Proof.
  revert b. induction a as [|x a IH]; intros [|y b] Hlen Hlt; try discriminate.
  - left. reflexivity.
  - cbn [tuple_ltb] in *. destruct (Z.eqb_spec x y) as [->|Hne].
    + rewrite Z.eqb_refl. destruct (IH b ltac:(cbn in Hlen; lia) Hlt) as [->|H];
        [left; reflexivity | right; exact H].
    + right. destruct (Z.eqb_spec y x); [congruence|].
      apply Z.ltb_lt. apply Z.ltb_ge in Hlt. lia.
Qed.

(** Earlier civil fields mean earlier seconds. *)
Lemma civil_fields_lt st s s' tm tm' :
  0 <= s -> 0 <= s' ->
  localtime st (Some s) = Ok tm -> localtime st (Some s') = Ok tm' ->
  tuple_ltb (civil_fields tm) (civil_fields tm') = true -> s < s'.
Proof.
  intros Hs Hs' Htm Htm'.
  destruct (localtime_nonneg st s Hs)
    as (y & k & mlen & d & Hy & Hk & Hd & _ & Hdays & E).
  destruct (localtime_nonneg st s' Hs')
    as (y' & k' & mlen' & d' & Hy' & Hk' & Hd' & _ & Hdays' & E').
  rewrite E in Htm. rewrite E' in Htm'. injection Htm as <-. injection Htm' as <-.
  unfold civil_fields. cbn [tm_year tm_mon tm_mday tm_hour tm_min tm_sec tuple_ltb].
  intros Hlt.
  rewrite (seconds_recompose s), (seconds_recompose s').
  pose proof (Z.mod_pos_bound (s / 60 / 60) 24 ltac:(lia)).
  pose proof (Z.mod_pos_bound (s / 60) 60 ltac:(lia)).
  pose proof (Z.mod_pos_bound s 60 ltac:(lia)).
  pose proof (Z.mod_pos_bound (s' / 60 / 60) 24 ltac:(lia)).
  pose proof (Z.mod_pos_bound (s' / 60) 60 ltac:(lia)).
  pose proof (Z.mod_pos_bound s' 60 ltac:(lia)).
  assert (s / 60 / 60 / 24 < s' / 60 / 60 / 24
          \/ (s / 60 / 60 / 24 = s' / 60 / 60 / 24
              /\ tuple_ltb [s / 60 / 60 mod 24; s / 60 mod 60; s mod 60]
                   [s' / 60 / 60 mod 24; s' / 60 mod 60; s' mod 60] = true))
    as [HD | [HD Htod]].
  { rewrite Hdays, Hdays'.
    destruct (Z.eqb_spec y y') as [<-|Hny].
    - destruct (Z.eqb_spec (1 + Z.of_nat k) (1 + Z.of_nat k')) as [Ek|Hnk].
      + assert (k' = k) as -> by lia.
        destruct (Z.eqb_spec d d') as [<-|Hnd].
        * right. split; [reflexivity | exact Hlt].
        * left. apply Z.ltb_lt in Hlt.
          apply (day_count_lt y k mlen d y k mlen' d'); auto.
      + left. apply Z.ltb_lt in Hlt.
        apply (day_count_lt y k mlen d y k' mlen' d'); auto.
        right. split; [reflexivity|]. left. lia.
    - left. apply Z.ltb_lt in Hlt.
      apply (day_count_lt y k mlen d y' k' mlen' d'); auto. }
  - lia.
  - rewrite HD. cbn [tuple_ltb] in Htod.
    destruct (Z.eqb_spec (s / 60 / 60 mod 24) (s' / 60 / 60 mod 24)) as [Eh|Nh];
      [|apply Z.ltb_lt in Htod; lia].
    destruct (Z.eqb_spec (s / 60 mod 60) (s' / 60 mod 60)) as [Em|Nm];
      [|apply Z.ltb_lt in Htod; lia].
    destruct (Z.eqb_spec (s mod 60) (s' mod 60)) as [Es|Ns];
      [discriminate Htod | apply Z.ltb_lt in Htod; lia].
Qed.

(** X10: [localtime] preserves order from the epoch on: of two second
    counts the later one has the lexicographically later year, month,
    day, hour, minute and second. *)
Theorem localtime_monotone st s s' tm tm' :
  0 <= s -> s < s' ->
  localtime st (Some s) = Ok tm -> localtime st (Some s') = Ok tm' ->
  tuple_ltb (civil_fields tm) (civil_fields tm') = true.
Proof.
  intros Hs Hlt Htm Htm'.
  destruct (tuple_ltb (civil_fields tm) (civil_fields tm')) eqn:E; [reflexivity|].
  exfalso. apply tuple_ltb_total in E; [|reflexivity].
  destruct E as [E|E].
  - assert (s = s'); [|lia].
    destruct (localtime_nonneg st s Hs)
      as (y & k & mlen & d & _ & _ & _ & _ & Hdays & E1).
    destruct (localtime_nonneg st s' ltac:(lia))
      as (y' & k' & mlen' & d' & _ & _ & _ & _ & Hdays' & E1').
    rewrite E1 in Htm. rewrite E1' in Htm'. injection Htm as <-. injection Htm' as <-.
    unfold civil_fields in E. cbn [tm_year tm_mon tm_mday tm_hour tm_min tm_sec] in E.
    injection E as Ey Ek Ed Eh Em Es.
    assert (k = k') by lia. subst y' k' d'.
    rewrite (seconds_recompose s), (seconds_recompose s'), Hdays, Hdays'. lia.
  - pose proof (civil_fields_lt st s' s tm' tm ltac:(lia) Hs Htm' Htm E). lia.
Qed.

Lemma localtime_monotone_witness :
  (0 <= 1709164799 /\ 1709164799 < 1709164800
   /\ localtime sample_systemtime (Some 1709164799) = Ok feb28_2024
   /\ localtime sample_systemtime (Some 1709164800)
      = Ok (mk_struct_time [] 2024 2 29 0 0 0 3 60 0))
  /\ tuple_ltb (civil_fields feb28_2024)
       (civil_fields (mk_struct_time [] 2024 2 29 0 0 0 3 60 0)) = true.
Proof.
  split; [repeat split; try lia; vm_compute; reflexivity|].
  apply (localtime_monotone sample_systemtime 1709164799 1709164800); try lia;
    vm_compute; reflexivity.
Defined.

(** * [asctime] and [ctime] *)

Example asctime_ex st :
  asctime st (Some (mk_struct_time [] 1998 6 6 16 26 11 5 157 0))
  = Ok "Sat Jun  6 16:26:11 1998".
Proof. vm_compute. reflexivity. Qed.

Lemma string_length_app (a b : string) :
  String.length (a +:+ b) = (String.length a + String.length b)%nat.
Proof.
  induction a as [|c a IH]; [reflexivity|].
  change (String c a +:+ b) with (String c (a +:+ b)). cbn [String.length].
  rewrite IH. reflexivity.
Qed.

(** A boolean test that holds on a whole range holds at each of its points. *)
Lemma py_range_forallb (P : Z -> bool) a b :
  forallb P (py_range a b) = true -> forall z, a <= z < b -> P z = true.
Proof.
  intros H z Hz. rewrite forallb_forall in H. apply H.
  unfold py_range. apply in_map_iff. exists (Z.to_nat (z - a)).
  split; [lia|]. apply in_seq. lia.
Qed.

Lemma format_day_length d :
  1 <= d <= 31 -> String.length (py_format_d false 2 d) = 2%nat.
Proof.
  intros H.
  apply Nat.eqb_eq.
  apply (py_range_forallb
           (fun z => Nat.eqb (String.length (py_format_d false 2 z)) 2) 1 32);
    [vm_compute; reflexivity | lia].
Qed.

Lemma format_clock_length n :
  0 <= n <= 59 -> String.length (py_format_d true 2 n) = 2%nat.
Proof.
  intros H.
  apply Nat.eqb_eq.
  apply (py_range_forallb
           (fun z => Nat.eqb (String.length (py_format_d true 2 z)) 2) 0 60);
    [vm_compute; reflexivity | lia].
Qed.

Lemma str_year_length y :
  1000 <= y <= 9999 -> String.length (py_str y) = 4%nat.
Proof.
  intros H.
  apply Nat.eqb_eq.
  apply (py_range_forallb
           (fun z => Nat.eqb (String.length (py_str z)) 4) 1000 10000);
    [vm_compute; reflexivity | lia].
Qed.

Lemma weekday_name (i : Z) :
  0 <= i < 7 ->
  exists name, py_getitem _weekdays i = Ok name /\ String.length name = 3%nat.
Proof.
  intros H.
  assert (i = 0 \/ i = 1 \/ i = 2 \/ i = 3 \/ i = 4 \/ i = 5 \/ i = 6) as Hc by lia.
  repeat (destruct Hc as [->|Hc]); try subst i; eexists; split; reflexivity.
Qed.

Lemma month_name (i : Z) :
  0 <= i < 12 ->
  exists name, py_getitem _months i = Ok name /\ String.length name = 3%nat.
Proof.
  intros H.
  assert (i = 0 \/ i = 1 \/ i = 2 \/ i = 3 \/ i = 4 \/ i = 5 \/ i = 6 \/ i = 7
          \/ i = 8 \/ i = 9 \/ i = 10 \/ i = 11) as Hc by lia.
  repeat (destruct Hc as [->|Hc]); try subst i; eexists; split; reflexivity.
Qed.

Lemma asctime_in_range st t :
  -11 <= tm_mon t <= 12 -> exists out, asctime st (Some t) = Ok out.
Proof.
  intros H. unfold asctime. cbn [mbind result_bind].
  destruct (weekday_name (tm_wday t mod 7)) as (wd & -> & _);
    [apply Z.mod_pos_bound; lia|].
  cbn [mbind result_bind].
  destruct (py_getitem_in_range _months (tm_mon t - 1)) as [mon ->];
    [change (Z.of_nat (length _months)) with 12; lia|].
  cbn [mbind result_bind]. eexists. reflexivity.
Qed.

(** X11: [asctime] on a given tuple returns a string exactly when the
    month is in -11 .. 12 and raises [IndexError] otherwise; the weekday
    never makes it raise, since it is reduced modulo 7. *)
Theorem asctime_month_range st t :
  (-11 <= tm_mon t <= 12 -> exists out, asctime st (Some t) = Ok out)
  /\ (tm_mon t < -11 \/ 12 < tm_mon t -> asctime st (Some t) = Raise IndexError).
Proof.
  split; [apply asctime_in_range|].
  intros H. unfold asctime. cbn [mbind result_bind].
  destruct (weekday_name (tm_wday t mod 7)) as (wd & -> & _);
    [apply Z.mod_pos_bound; lia|].
  cbn [mbind result_bind].
  rewrite py_getitem_out_of_range
    by (change (Z.of_nat (length _months)) with 12; lia).
  reflexivity.
Qed.

Lemma asctime_month_range_witness :
  (-11 <= tm_mon feb28_2024 <= 12 /\ (13 < -11 \/ 12 < 13))
  /\ (exists out, asctime sample_systemtime (Some feb28_2024) = Ok out)
  /\ asctime sample_systemtime (Some (mk_struct_time [] 2024 13 1 0 0 0 99 0 0))
     = Raise IndexError.
Proof.
  split; [cbn [feb28_2024 tm_mon]; lia|]. split.
  - apply (proj1 (asctime_month_range sample_systemtime feb28_2024)).
    cbn [feb28_2024 tm_mon]. lia.
  - apply (proj2 (asctime_month_range sample_systemtime
                    (mk_struct_time [] 2024 13 1 0 0 0 99 0 0))).
    cbn [tm_mon]. lia.
Defined.

(** X12: for seconds from the epoch up to the end of year 9999,
    [ctime] returns a string of exactly 24 characters that starts with
    the name of the weekday [((s div 86400) + 3) mod 7]. *)
Theorem ctime_fixed_width st s :
  0 <= s < 253402300800 ->
  exists out day_name rest,
    ctime st (Some s) = Ok out
    /\ String.length out = 24%nat
    /\ py_getitem _weekdays ((s / 86400 + 3) mod 7) = Ok day_name
    /\ out = day_name +:+ rest.
Proof.
  intros [Hs Hmax].
  destruct (localtime_nonneg st s Hs)
    as (y & k & mlen & d & Hy & Hk & Hd & Hyd & Hdays & Htm).
  destruct (leap_patched_lookup y k mlen Hk) as [Hk12 Hmlen].
  assert (y <= 9999) as Hy9.
  { destruct (Z.le_gt_cases y 9999) as [|Hbig]; [assumption|exfalso].
    pose proof (span_days_split 1970 10000 y ltac:(lia) ltac:(lia)) as Hsp.
    pose proof (span_days_nonneg 10000 y).
    assert (span_days 1970 10000 = 2932897) as E.
    { rewrite span_days_closed by lia. reflexivity. }
    assert (s / 60 / 60 / 24 < 2932897)
      by (rewrite seconds_days; apply Z.div_lt_upper_bound; lia).
    lia. }
  unfold ctime. rewrite Htm. cbn [mbind result_bind]. unfold asctime.
  cbn [mbind result_bind tm_year tm_mon tm_mday tm_hour tm_min tm_sec tm_wday].
  rewrite Z.mod_mod by lia. rewrite seconds_days.
  destruct (weekday_name ((s / 86400 + 3) mod 7)) as (wd & Hwd & Lwd);
    [apply Z.mod_pos_bound; lia|].
  rewrite Hwd. cbn [mbind result_bind].
  destruct (month_name (1 + Z.of_nat k - 1)) as (mon & Hmon & Lmon); [lia|].
  rewrite Hmon. cbn [mbind result_bind].
  eexists. exists wd. eexists. split; [reflexivity|].
  split; [|split; reflexivity].
  rewrite !string_length_app, Lwd, Lmon.
  rewrite format_day_length by lia.
    assert (0 <= s / 60 / 60 mod 24 <= 59) by (pose proof (Z.mod_pos_bound (s / 60 / 60) 24); lia).
    assert (0 <= s / 60 mod 60 <= 59) by (pose proof (Z.mod_pos_bound (s / 60) 60); lia).
    assert (0 <= s mod 60 <= 59) by (pose proof (Z.mod_pos_bound s 60); lia).
    rewrite !format_clock_length by assumption.
  rewrite str_year_length by lia. reflexivity.
Qed.

Lemma ctime_fixed_width_witness :
  0 <= 1709164799 < 253402300800
  /\ exists out day_name rest,
      ctime sample_systemtime (Some 1709164799) = Ok out
      /\ String.length out = 24%nat
      /\ py_getitem _weekdays ((1709164799 / 86400 + 3) mod 7) = Ok day_name
      /\ out = day_name +:+ rest.
Proof.
  split; [lia|]. apply (ctime_fixed_width sample_systemtime 1709164799). lia.
Defined.

(** X13: [ctime] returns a string for every integer second count: the
    month [localtime] produces always indexes the month names. *)
Theorem ctime_total st s : exists out, ctime st (Some s) = Ok out.
Proof.
  destruct (localtime_total st s) as [tm Htm].
  assert (1 <= tm_mon tm <= 12) as Hmon.
  { destruct (Z.lt_ge_cases s 0) as [Hneg|Hpos].
    - rewrite localtime_neg in Htm by exact Hneg. injection Htm as <-.
      cbn [tm_mon]. lia.
    - destruct (localtime_nonneg st s Hpos)
        as (y & k & mlen & d & _ & Hk & _ & _ & _ & E).
      rewrite E in Htm. injection Htm as <-.
      destruct (leap_patched_lookup y k mlen Hk). cbn [tm_mon]. lia. }
  unfold ctime. rewrite Htm. cbn [mbind result_bind].
  apply asctime_in_range. lia.
Qed.

(** * More on [strftime] *)

(** X14: a format without [%] is returned unchanged, whatever the
    tuple is, the missing tuple included. *)
Theorem strftime_no_percent format tuple :
  ~ In "%"%char (String.list_ascii_of_string format) ->
  strftime format tuple = Ok format.
Proof.
  induction format as [|c format IH]; intros H; [reflexivity|].
  cbn [String.list_ascii_of_string In] in H.
  rewrite strftime_loop_cons_plain by (left; intros ->; apply H; left; reflexivity).
  rewrite IH by (intros Hin; apply H; right; exact Hin). reflexivity.
Qed.

Lemma strftime_no_percent_witness :
  ~ In "%"%char (String.list_ascii_of_string "12:00 noon")
  /\ strftime "12:00 noon" None = Ok "12:00 noon".
Proof.
  assert (~ In "%"%char (String.list_ascii_of_string "12:00 noon")) as H
    by (cbn; intuition discriminate).
  split; [exact H|]. apply (strftime_no_percent "12:00 noon" None H).
Defined.

Lemma handlers_elem code (fn : handler) :
  _strtime_handlers !! code = Some fn ->
  (code, fn) ∈ [
    ("Y"%char, (fun tm => y ← attr tm_year tm; Ok (py_str y)) : handler);
    ("y"%char, fun tm => y ← attr tm_year tm; Ok (_zero (y mod 100)));
    ("m"%char, fun tm => v ← attr tm_mon tm; Ok (_zero v));
    ("d"%char, fun tm => v ← attr tm_mday tm; Ok (_zero v));
    ("H"%char, fun tm => v ← attr tm_hour tm; Ok (_zero v));
    ("M"%char, fun tm => v ← attr tm_min tm; Ok (_zero v));
    ("S"%char, fun tm => v ← attr tm_sec tm; Ok (_zero v));
    ("a"%char, fun tm => v ← attr tm_wday tm; py_getitem _weekdays v);
    ("A"%char, fun tm => v ← attr tm_wday tm; py_getitem _weekdays_full v);
    ("b"%char, fun tm => v ← attr tm_mon tm; py_getitem _months (v - 1));
    ("B"%char, fun tm => v ← attr tm_mon tm; py_getitem _months_full (v - 1));
    ("w"%char, fun tm => v ← attr tm_wday tm; Ok (py_str v));
    ("j"%char, fun tm => _yday tm);
    ("%"%char, fun tm => Ok "%")
  ].
Proof. unfold _strtime_handlers. apply elem_of_list_to_map_2. Qed.

Ltac handler_cases H :=
  apply handlers_elem in H;
  repeat (apply elem_of_cons in H as [H|H]; [injection H as -> ->|]);
  [..|apply elem_of_nil in H; destruct H].

(** On a tuple whose weekday and month index the name tables, no handler
    raises. *)
Lemma handler_in_range code (fn : handler) tm :
  _strtime_handlers !! code = Some fn ->
  -7 <= tm_wday tm <= 6 -> -11 <= tm_mon tm <= 12 ->
  exists piece, fn (Some tm) = Ok piece.
Proof.
  intros H Hwd Hmon. handler_cases H; cbn [attr mbind result_bind _yday];
    try (eexists; reflexivity).
  - apply py_getitem_in_range. change (Z.of_nat (length _weekdays)) with 7. lia.
  - apply py_getitem_in_range. change (Z.of_nat (length _weekdays_full)) with 7. lia.
  - apply py_getitem_in_range. change (Z.of_nat (length _months)) with 12. lia.
  - apply py_getitem_in_range. change (Z.of_nat (length _months_full)) with 12. lia.
Qed.

Lemma strftime_in_range format tm :
  -7 <= tm_wday tm <= 6 -> -11 <= tm_mon tm <= 12 ->
  exists out, strftime format (Some tm) = Ok out.
Proof.
  intros Hwd Hmon.
  induction format as [|c|c c' s IHs IHc] using string_pair_ind.
  - eexists. reflexivity.
  - rewrite strftime_loop_cons_plain by (right; reflexivity).
    eexists. reflexivity.
  - destruct (Ascii.eqb_spec c "%") as [->|Hc].
    + rewrite strftime_loop_cons_code. destruct IHs as [tail ->].
      destruct (_strtime_handlers !! c') as [fn|] eqn:Hfn.
      * destruct (handler_in_range c' fn tm Hfn Hwd Hmon) as [piece ->].
        eexists. reflexivity.
      * eexists. reflexivity.
    + rewrite strftime_loop_cons_plain by (left; exact Hc).
      destruct IHc as [tail ->]. eexists. reflexivity.
Qed.

(** X15: [strftime] never raises on what [localtime] returns: for every
    integer second count and every format string the formatting of the
    broken-down time yields a string. *)
Theorem strftime_localtime_total st s format :
  exists tm out,
    localtime st (Some s) = Ok tm /\ strftime format (Some tm) = Ok out.
Proof.
  destruct (localtime_total st s) as [tm Htm]. exists tm.
  assert (0 <= tm_wday tm <= 6 /\ 1 <= tm_mon tm <= 12) as [Hwd Hmon].
  { destruct (Z.lt_ge_cases s 0) as [Hneg|Hpos].
    - rewrite localtime_neg in Htm by exact Hneg. injection Htm as <-.
      cbn [tm_mon tm_wday].
      pose proof (Z.mod_pos_bound (s / 60 / 60 / 24 + 3) 7 ltac:(lia)). lia.
    - destruct (localtime_fields_in_range st s Hpos) as (tm' & E & H).
      rewrite E in Htm. injection Htm as <-. lia. }
  destruct (strftime_in_range format tm ltac:(lia) ltac:(lia)) as [out Hout].
  exists out. split; [exact Htm | exact Hout].
Qed.

(** X16: without a tuple, [strftime] raises [AttributeError] at the
    first [%] when it is followed by a code of the handler table other
    than [%]; the current time is not substituted. *)
Theorem strftime_without_tuple prefix code rest :
  ~ In "%"%char (String.list_ascii_of_string prefix) ->
  code ∈ handled_codes -> code <> "%"%char ->
  strftime (prefix +:+ String "%" (String code rest)) None = Raise AttributeError.
Proof.
  intros Hp Hcode Hne. induction prefix as [|c prefix IH].
  - change (EmptyString +:+ String "%" (String code rest))
      with (String "%" (String code rest)).
    rewrite strftime_loop_cons_code.
    unfold handled_codes in Hcode.
    repeat (apply elem_of_cons in Hcode as [->|Hcode];
            [try congruence; vm_compute; reflexivity|]).
    apply elem_of_nil in Hcode. destruct Hcode.
  - cbn [String.list_ascii_of_string In] in Hp.
    change (String c prefix +:+ String "%" (String code rest))
      with (String c (prefix +:+ String "%" (String code rest))).
    rewrite strftime_loop_cons_plain by (left; intros ->; apply Hp; left; reflexivity).
    rewrite IH by (intros Hin; apply Hp; right; exact Hin). reflexivity.
Qed.

Lemma strftime_without_tuple_witness :
  (~ In "%"%char (String.list_ascii_of_string "at ")
   /\ "H"%char ∈ handled_codes /\ "H"%char <> "%"%char)
  /\ strftime ("at " +:+ String "%" (String "H" ":%M")) None = Raise AttributeError.
Proof.
  assert (~ In "%"%char (String.list_ascii_of_string "at ")) as H1
    by (cbn; intuition discriminate).
  assert ("H"%char ∈ handled_codes) as H2
    by (apply handlers_domain; eexists; reflexivity).
  assert ("H"%char <> "%"%char) as H3 by discriminate.
  split; [repeat split; assumption|].
  apply (strftime_without_tuple "at " "H" ":%M" H1 H2 H3).
Defined.

(** X17: [%a] and [%A] raise [IndexError] when the weekday is outside
    -7 .. 6, and [%b] and [%B] when the month is outside -11 .. 12. *)
Theorem strftime_name_index_error code rest tm :
  ((code = "a"%char \/ code = "A"%char) /\ (tm_wday tm < -7 \/ 6 < tm_wday tm))
  \/ ((code = "b"%char \/ code = "B"%char) /\ (tm_mon tm < -11 \/ 12 < tm_mon tm)) ->
  strftime (String "%" (String code rest)) (Some tm) = Raise IndexError.
Proof.
  intros H. rewrite strftime_loop_cons_code.
  destruct H as [[[-> | ->] Hr] | [[-> | ->] Hr]].
  - replace (_strtime_handlers !! "a"%char)
      with (Some ((fun tm => v ← attr tm_wday tm; py_getitem _weekdays v) : handler))
      by reflexivity.
    cbn [attr mbind result_bind]. rewrite py_getitem_out_of_range; [reflexivity|].
    change (Z.of_nat (length _weekdays)) with 7. lia.
  - replace (_strtime_handlers !! "A"%char)
      with (Some ((fun tm => v ← attr tm_wday tm; py_getitem _weekdays_full v)
                  : handler))
      by reflexivity.
    cbn [attr mbind result_bind]. rewrite py_getitem_out_of_range; [reflexivity|].
    change (Z.of_nat (length _weekdays_full)) with 7. lia.
  - replace (_strtime_handlers !! "b"%char)
      with (Some ((fun tm => v ← attr tm_mon tm; py_getitem _months (v - 1))
                  : handler))
      by reflexivity.
    cbn [attr mbind result_bind]. rewrite py_getitem_out_of_range; [reflexivity|].
    change (Z.of_nat (length _months)) with 12. lia.
  - replace (_strtime_handlers !! "B"%char)
      with (Some ((fun tm => v ← attr tm_mon tm; py_getitem _months_full (v - 1))
                  : handler))
      by reflexivity.
    cbn [attr mbind result_bind]. rewrite py_getitem_out_of_range; [reflexivity|].
    change (Z.of_nat (length _months_full)) with 12. lia.
Qed.

Lemma strftime_name_index_error_witness :
  (("a"%char = "a"%char \/ "a"%char = "A"%char) /\ (7 < -7 \/ 6 < 7)
   \/ ("a"%char = "b"%char \/ "a"%char = "B"%char) /\ (2 < -11 \/ 12 < 2))
  /\ strftime (String "%" (String "a" " %d"))
       (Some (mk_struct_time [] 2024 2 28 0 0 0 7 59 0))
     = Raise IndexError.
Proof.
  assert (("a"%char = "a"%char \/ "a"%char = "A"%char) /\ (7 < -7 \/ 6 < 7)
   \/ ("a"%char = "b"%char \/ "a"%char = "B"%char) /\ (2 < -11 \/ 12 < 2)) as H
    by (left; split; [left; reflexivity | right; lia]).
  split; [exact H|].
  apply (strftime_name_index_error "a" " %d"
           (mk_struct_time [] 2024 2 28 0 0 0 7 59 0) H).
Defined.

(** * The clock registry, [sleep] and the time tuple *)

(** The five branches of [get_clock_info]. *)
Lemma get_clock_info_cases _frequency name :
  ((lower name = "monotonic" \/ lower name = "perf_counter")
   /\ get_clock_info _frequency name
      = if _frequency =? 0 then Raise ZeroDivisionError
        else Ok {| resolution := one_over _frequency; adjustable := false;
                   implementation := "QueryPerformanceCounter";
                   monotonic := true |})
  \/ (lower name = "process_time"
      /\ get_clock_info _frequency name
         = Ok {| resolution := lit_1e_7; adjustable := false;
                 implementation := "GetProcessTimes"; monotonic := true |})
  \/ (lower name = "thread_time"
      /\ get_clock_info _frequency name
         = Ok {| resolution := lit_1e_7; adjustable := false;
                 implementation := "GetThreadTimes"; monotonic := true |})
  \/ (lower name = "time"
      /\ get_clock_info _frequency name
         = Ok {| resolution := lit_1e_7; adjustable := true;
                 implementation := "GetSystemTimeAsFileTime";
                 monotonic := false |})
  \/ (exists msg, get_clock_info _frequency name = Raise (ValueError msg)).
Proof.
  unfold get_clock_info.
  destruct (String.eqb_spec (lower name) "monotonic") as [E1|E1];
    [left; split; [left; exact E1 | reflexivity]|].
  destruct (String.eqb_spec (lower name) "perf_counter") as [E2|E2];
    [left; split; [right; exact E2 | reflexivity]|].
  cbn [orb].
  destruct (String.eqb_spec (lower name) "process_time") as [E3|E3];
    [right; left; split; [exact E3 | reflexivity]|].
  destruct (String.eqb_spec (lower name) "thread_time") as [E4|E4];
    [right; right; left; split; [exact E4 | reflexivity]|].
  destruct (String.eqb_spec (lower name) "time") as [E5|E5];
    [right; right; right; left; split; [exact E5 | reflexivity]|].
  right; right; right; right. eexists. reflexivity.
Qed.

(** X18: in every metadata record [get_clock_info] returns, the clock
    is monotonic exactly when it is not adjustable; it is adjustable
    exactly for the name [time]; it is backed by QueryPerformanceCounter
    exactly for [monotonic] and [perf_counter], and then the frequency
    is not zero and the resolution is the float [1 / _frequency]; for
    the other clocks the resolution is the float [1e-7].  At a frequency
    of 10 MHz the two floats are the same, so that every clock has the
    resolution [1e-7]. *)
Theorem get_clock_info_registry _frequency name info :
  get_clock_info _frequency name = Ok info ->
  monotonic info = negb (adjustable info)
  /\ (adjustable info = true <-> lower name = "time")
  /\ (implementation info = "QueryPerformanceCounter"
      <-> lower name = "monotonic" \/ lower name = "perf_counter")
  /\ (implementation info = "QueryPerformanceCounter" ->
      _frequency <> 0
      /\ resolution_float (resolution info) = int_truediv 1 _frequency)
  /\ (implementation info <> "QueryPerformanceCounter" ->
      resolution_float (resolution info) = Ok float_1e_7)
  /\ (_frequency = 10000000 -> resolution_float (resolution info) = Ok float_1e_7).
Proof.
  intros H.
  destruct (get_clock_info_cases _frequency name)
    as [[Hn E]|[[Hn E]|[[Hn E]|[[Hn E]|[msg E]]]]]; rewrite E in H.
  - destruct (Z.eqb_spec _frequency 0) as [|Hf]; [discriminate H|]. injection H as <-.
    cbn [monotonic adjustable resolution implementation negb resolution_float].
    split; [reflexivity|]. split; [|split; [|split; [|split]]].
    + split; [discriminate|]. intros Ht. destruct Hn as [Hn|Hn]; rewrite Hn in Ht;
        discriminate Ht.
    + split; [intros _; exact Hn | reflexivity].
    + intros _. split; [exact Hf | reflexivity].
    + intros Hne. exfalso. apply Hne. reflexivity.
    + intros ->. vm_compute. reflexivity.
  - injection H as <-.
    cbn [monotonic adjustable resolution implementation negb resolution_float].
    split; [reflexivity|]. split; [|split; [|split; [|split]]].
    + split; [discriminate|]. rewrite Hn. discriminate.
    + split; [discriminate|]. rewrite Hn. intros [Ht|Ht]; discriminate Ht.
    + discriminate.
    + reflexivity.
    + reflexivity.
  - injection H as <-.
    cbn [monotonic adjustable resolution implementation negb resolution_float].
    split; [reflexivity|]. split; [|split; [|split; [|split]]].
    + split; [discriminate|]. rewrite Hn. discriminate.
    + split; [discriminate|]. rewrite Hn. intros [Ht|Ht]; discriminate Ht.
    + discriminate.
    + reflexivity.
    + reflexivity.
  - injection H as <-.
    cbn [monotonic adjustable resolution implementation negb resolution_float].
    split; [reflexivity|]. split; [|split; [|split; [|split]]].
    + split; [intros _; exact Hn | reflexivity].
    + split; [discriminate|]. rewrite Hn. intros [Ht|Ht]; discriminate Ht.
    + discriminate.
    + reflexivity.
    + reflexivity.
  - discriminate H.
Qed.

Lemma get_clock_info_registry_witness :
  get_clock_info 10000000 "Perf_Counter"
  = Ok {| resolution := one_over 10000000; adjustable := false;
          implementation := "QueryPerformanceCounter"; monotonic := true |}
  /\ true = negb false
  /\ (false = true <-> lower "Perf_Counter" = "time")
  /\ ("QueryPerformanceCounter" = "QueryPerformanceCounter"
      <-> lower "Perf_Counter" = "monotonic" \/ lower "Perf_Counter" = "perf_counter")
  /\ ("QueryPerformanceCounter" = "QueryPerformanceCounter" ->
      10000000 <> 0
      /\ resolution_float (one_over 10000000) = int_truediv 1 10000000)
  /\ ("QueryPerformanceCounter" <> "QueryPerformanceCounter" ->
      resolution_float (one_over 10000000) = Ok float_1e_7)
  /\ (10000000 = 10000000 -> resolution_float (one_over 10000000) = Ok float_1e_7).
Proof.
  split; [vm_compute; reflexivity|].
  apply (get_clock_info_registry 10000000 "Perf_Counter"
           {| resolution := one_over 10000000; adjustable := false;
              implementation := "QueryPerformanceCounter"; monotonic := true |}).
  vm_compute. reflexivity.
Defined.

(** [lower] leaves a lower-cased string alone. *)
Lemma lower_char_idempotent c : lower_char (lower_char c) = lower_char c.
Proof. destruct c as [[] [] [] [] [] [] [] []]; vm_compute; reflexivity. Qed.

Lemma lower_idempotent s : lower (lower s) = lower s.
Proof.
  induction s as [|c s IH]; [reflexivity|].
  cbn [lower]. rewrite lower_char_idempotent, IH. reflexivity.
Qed.

(** X19: [get_clock_info] ignores the case of the name: names with the
    same lower-cased form get the same answer, and a name and its
    lower-cased form get the same answer. *)
Theorem get_clock_info_case_insensitive _frequency name :
  get_clock_info _frequency (lower name) = get_clock_info _frequency name
  /\ forall name', lower name' = lower name ->
       get_clock_info _frequency name' = get_clock_info _frequency name.
Proof.
  split.
  - unfold get_clock_info. rewrite lower_idempotent. reflexivity.
  - intros name' H. unfold get_clock_info. rewrite H. reflexivity.
Qed.

Lemma get_clock_info_case_insensitive_witness :
  lower "Perf_Counter" = lower "PERF_COUNTER"
  /\ get_clock_info 10000000 "Perf_Counter" = get_clock_info 10000000 "PERF_COUNTER".
Proof.
  split; [reflexivity|].
  apply (proj2 (get_clock_info_case_insensitive 10000000 "PERF_COUNTER")).
  reflexivity.
Defined.


(** X20: the calls [sleep] makes on an int, and its outcome.  The
    sequence of calls is [Sleep(0)] alone exactly for zero seconds; the
    arming of the timer alone exactly when the seconds are not zero and
    the arming fails; the arming followed by the wait with an infinite
    timeout exactly when the seconds are not zero and the arming
    succeeds.  The call returns normally exactly when the seconds are
    zero or both the arming and the wait succeed, and raises [OSError]
    with the last error otherwise.  The due time stored in the 64-bit
    field is [-(seconds * 10^7)], a relative interval in 100 ns units,
    for seconds of magnitude up to 922337203685; above that, up to
    1844674407370 seconds, it wraps around to a positive number. *)
Theorem sleep_protocol os seconds :
  (fst (sleep os seconds) = [Sleep 0] <-> seconds = 0)
  /\ (fst (sleep os seconds)
      = [SetWaitableTimer (c_longlong (- (seconds * 10000000)))]
      <-> seconds <> 0 /\ set_timer_ok os = false)
  /\ (fst (sleep os seconds)
      = [SetWaitableTimer (c_longlong (- (seconds * 10000000)));
         WaitForSingleObject INFINITE]
      <-> seconds <> 0 /\ set_timer_ok os = true)
  /\ (snd (sleep os seconds) = Ok tt
      <-> seconds = 0 \/ (set_timer_ok os = true /\ wait_result os = 0))
  /\ (snd (sleep os seconds) <> Ok tt ->
      snd (sleep os seconds) = Raise (OSError (last_error os)))
  /\ (- 922337203685 <= seconds <= 922337203685 ->
      c_longlong (- (seconds * 10000000)) = - (seconds * 10000000))
  /\ (922337203685 < seconds <= 1844674407370 ->
      c_longlong (- (seconds * 10000000)) = 2 ^ 64 - seconds * 10000000
      /\ 0 < c_longlong (- (seconds * 10000000))).
Proof.
  split; [|split; [|split; [|split; [|split; [|split]]]]].
  - unfold sleep. destruct (Z.eqb_spec seconds 0) as [E|E].
    + split; [intros _; exact E | reflexivity].
    + destruct (set_timer_ok os); cbn [negb];
        [destruct (negb (wait_result os =? 0))|]; cbn [fst];
        (split; [discriminate | intros; contradiction]).
  - unfold sleep. destruct (Z.eqb_spec seconds 0) as [E|E].
    + cbn [fst]. split; [discriminate | intros [H _]; contradiction].
    + destruct (set_timer_ok os); cbn [negb];
        [destruct (negb (wait_result os =? 0))|]; cbn [fst].
      * split; [discriminate | intros [_ H]; discriminate H].
      * split; [discriminate | intros [_ H]; discriminate H].
      * split; [intros _; split; [exact E | reflexivity] | reflexivity].
  - unfold sleep. destruct (Z.eqb_spec seconds 0) as [E|E].
    + cbn [fst]. split; [discriminate | intros [H _]; contradiction].
    + destruct (set_timer_ok os); cbn [negb];
        [destruct (negb (wait_result os =? 0))|]; cbn [fst].
      * split; [intros _; split; [exact E | reflexivity] | reflexivity].
      * split; [intros _; split; [exact E | reflexivity] | reflexivity].
      * split; [discriminate | intros [_ H]; discriminate H].
  - unfold sleep. destruct (Z.eqb_spec seconds 0) as [E|E].
    + cbn [snd]. split; [intros _; left; exact E | reflexivity].
    + destruct (set_timer_ok os); cbn [negb];
        [destruct (Z.eqb_spec (wait_result os) 0) as [Ew|Ew]; cbn [negb]|];
        cbn [snd].
      * split; [intros _; right; split; [reflexivity | exact Ew] | reflexivity].
      * split; [discriminate|]. intros [H|[_ H]]; contradiction.
      * split; [discriminate|]. intros [H|[H _]]; [contradiction | discriminate H].
  - unfold sleep. destruct (seconds =? 0); cbn [snd]; [intros H; contradiction|].
    destruct (set_timer_ok os); cbn [negb];
      [destruct (negb (wait_result os =? 0))|]; cbn [snd];
      first [reflexivity | intros H; contradiction].
  - intros Hs. unfold c_longlong. Z.div_mod_to_equations. lia.
  - intros Hs. unfold c_longlong.
    assert ((- (seconds * 10000000) + 2 ^ 63) mod 2 ^ 64
            = - (seconds * 10000000) + 2 ^ 63 + 2 ^ 64) as ->.
    { symmetry. apply (Z.mod_unique _ _ (-1)); lia. }
    lia.
Qed.

Lemma sleep_protocol_witness :
  (2 <> 0 /\ set_timer_ok sample_timer_os = true)
  /\ fst (sleep sample_timer_os 2)
     = [SetWaitableTimer (c_longlong (- (2 * 10000000))); WaitForSingleObject INFINITE]
  /\ (- 922337203685 <= 2 <= 922337203685)
  /\ c_longlong (- (2 * 10000000)) = - (2 * 10000000)
  /\ snd (sleep sample_timer_os 2) = Ok tt.
Proof.
  assert (2 <> 0 /\ set_timer_ok sample_timer_os = true) as H
    by (split; [lia | reflexivity]).
  assert (- 922337203685 <= 2 <= 922337203685) as Hr by lia.
  split; [exact H|]. split; [|split; [exact Hr|split]].
  - apply (proj2 (proj1 (proj2 (proj2 (sleep_protocol sample_timer_os 2)))) H).
  - apply (proj1 (proj2 (proj2 (proj2 (proj2 (proj2 (sleep_protocol sample_timer_os 2))))))
             Hr).
  - apply (proj2 (proj1 (proj2 (proj2 (proj2 (sleep_protocol sample_timer_os 2)))))).
    right. split; reflexivity.
Defined.

(** X21: [struct_time] is built exactly from nine items; the nine
    attributes are then the items in order.  Any other number of items
    raises [ValueError]. *)
Theorem struct_time_new_arity args0 :
  (length args0 = 9%nat ->
   exists t, struct_time_new args0 = Ok t
     /\ [tm_year t; tm_mon t; tm_mday t; tm_hour t; tm_min t; tm_sec t;
         tm_wday t; tm_yday t; tm_isdst t] = args0)
  /\ (length args0 <> 9%nat ->
      exists msg, struct_time_new args0 = Raise (ValueError msg)).
Proof.
  split; intros H.
  - do 9 (destruct args0 as [|? args0]; [discriminate H|]).
    destruct args0; [|discriminate H]. eexists. split; reflexivity.
  - unfold struct_time_new.
    do 9 (destruct args0 as [|? args0]; [eexists; reflexivity|]).
    destruct args0; [contradiction H; reflexivity | eexists; reflexivity].
Qed.

Lemma struct_time_new_arity_witness :
  (length [2024; 2; 29; 8; 30; 15; 3; 60; 0] = 9%nat /\ length [2024; 2; 29] <> 9%nat)
  /\ (exists t, struct_time_new [2024; 2; 29; 8; 30; 15; 3; 60; 0] = Ok t
        /\ [tm_year t; tm_mon t; tm_mday t; tm_hour t; tm_min t; tm_sec t;
            tm_wday t; tm_yday t; tm_isdst t] = [2024; 2; 29; 8; 30; 15; 3; 60; 0])
  /\ exists msg, struct_time_new [2024; 2; 29] = Raise (ValueError msg).
Proof.
  split; [split; [reflexivity | discriminate]|]. split.
  - apply (proj1 (struct_time_new_arity [2024; 2; 29; 8; 30; 15; 3; 60; 0])).
    reflexivity.
  - apply (proj2 (struct_time_new_arity [2024; 2; 29])). discriminate.
Defined.

(** X22: all instances of [struct_time] have an empty tuple part: any
    two compare equal and neither is less, the length is 0 and every
    index raises [IndexError], whatever items they were built from. *)
Theorem struct_time_compare_blind a b ta tb :
  struct_time_new a = Ok ta -> struct_time_new b = Ok tb ->
  struct_time_eqb ta tb = true /\ struct_time_ltb ta tb = false
  /\ struct_time_len ta = 0
  /\ forall i, struct_time_getitem ta i = Raise IndexError.
Proof.
  intros Ha Hb. apply struct_time_new_items in Ha, Hb.
  unfold struct_time_eqb, struct_time_ltb, struct_time_len, struct_time_getitem.
  rewrite Ha, Hb. repeat split. intros i.
  apply py_getitem_out_of_range. cbn [length]. lia.
Qed.

Lemma struct_time_compare_blind_witness :
  (struct_time_new [1998; 6; 6; 16; 26; 11; 5; 157; 0] = Ok (mk_struct_time [] 1998 6 6 16 26 11 5 157 0)
   /\ struct_time_new [2024; 2; 28; 23; 59; 59; 2; 59; 0] = Ok feb28_2024)
  /\ struct_time_eqb (mk_struct_time [] 1998 6 6 16 26 11 5 157 0) feb28_2024 = true
  /\ struct_time_ltb (mk_struct_time [] 1998 6 6 16 26 11 5 157 0) feb28_2024 = false
  /\ struct_time_len (mk_struct_time [] 1998 6 6 16 26 11 5 157 0) = 0
  /\ forall i,
       struct_time_getitem (mk_struct_time [] 1998 6 6 16 26 11 5 157 0) i
       = Raise IndexError.
Proof.
  split; [split; reflexivity|].
  apply (struct_time_compare_blind [1998; 6; 6; 16; 26; 11; 5; 157; 0]
           [2024; 2; 28; 23; 59; 59; 2; 59; 0]); reflexivity.
Defined.
